(** * salt/grains/disks.py: disk inventory grain

    A shallow embedding of [salt/grains/disks.py] and the properties of
    its three platform branches (FreeBSD [geom], Linux [sysfs], Windows
    [wmic]).

    Text is Python 3 [str] restricted to code points below U+0100: a
    [string] of 8-bit characters, each read as the code point of the same
    number.  Character classes follow CPython's tables on that range.
    Dictionaries are finite maps; exceptions are an explicit result. *)

From Stdlib Require Import String Ascii ZArith List Bool Lia.
From stdpp Require Import gmap strings list fin_maps.

Local Open Scope string_scope.
Local Open Scope Z_scope.

(** ** Python text primitives *)

Module Py.

Definition code (c : ascii) : N := N_of_ascii c.

(** [str.isspace], [str.split()] and the regex class [\s]. *)
Definition isspace (c : ascii) : bool :=
  let n := code c in
  ((9 <=? n) && (n <=? 13) || (28 <=? n) && (n <=? 32)
   || (n =? 133) || (n =? 160))%N.

(** Decimal digits: the regex class [\d] and what [int] accepts. *)
Definition isdecimal (c : ascii) : bool :=
  let n := code c in ((48 <=? n) && (n <=? 57))%N.

(** [str.isdigit] on one character: the decimal digits and the
    superscripts U+00B2, U+00B3, U+00B9. *)
Definition isdigit_char (c : ascii) : bool :=
  let n := code c in
  (isdecimal c || (n =? 178) || (n =? 179) || (n =? 185))%N.

(** Line boundaries of [str.splitlines]. *)
Definition islinebreak (c : ascii) : bool :=
  let n := code c in
  ((10 <=? n) && (n <=? 13) || (28 <=? n) && (n <=? 30) || (n =? 133))%N.

(** Whitespace skipped by [int] around the number: for text that is not
    pure ASCII the non-ASCII blanks are folded to a space first, the ASCII
    separators U+001C..U+001F are not. *)
Definition int_space (c : ascii) : bool :=
  let n := code c in
  ((9 <=? n) && (n <=? 13) || (n =? 32) || (n =? 133) || (n =? 160))%N.

Definition newline : ascii := "010"%char.

Fixpoint forallb_str (p : ascii -> bool) (s : string) : bool :=
  match s with
  | EmptyString => true
  | String c s' => p c && forallb_str p s'
  end.

(** [s.isdigit()]: false on the empty string. *)
Definition isdigit (s : string) : bool :=
  match s with
  | EmptyString => false
  | _ => forallb_str isdigit_char s
  end.

(** The one-character text of a line feed. *)
Definition nl : string := String newline "".

(** [sep.join(l)]. *)
Fixpoint join (sep : string) (l : list string) : string :=
  match l with
  | [] => ""
  | [x] => x
  | x :: l' => x ++ sep ++ join sep l'
  end.

(** [s.startswith(p)]. *)
Definition startswith (s p : string) : bool := String.prefix p s.

(** [s[n:]]. *)
Fixpoint drop (n : nat) (s : string) : string :=
  match n, s with
  | O, _ => s
  | S n', String _ s' => drop n' s'
  | S _, EmptyString => EmptyString
  end.

(** [s.split(sep)] for a non-empty separator: leftmost, non-overlapping
    occurrences.  [skip] counts the characters of a separator still to be
    passed over, [cur] is the piece read so far. *)
Fixpoint split_aux (sep : string) (skip : nat) (cur : string) (s : string)
  : list string :=
  match s with
  | EmptyString => [cur]
  | String c s' =>
      match skip with
      | S k => split_aux sep k cur s'
      | O =>
          if String.prefix sep s
          then cur :: split_aux sep (String.length sep - 1) "" s'
          else split_aux sep 0 (cur ++ String c "") s'
      end
  end.

Definition split (sep s : string) : list string := split_aux sep 0 "" s.

(** [s.split()]: maximal runs of non-blank characters. *)
Fixpoint split_ws_aux (cur : string) (s : string) : list string :=
  match s with
  | EmptyString =>
      match cur with EmptyString => [] | _ => [cur] end
  | String c s' =>
      if isspace c
      then match cur with
           | EmptyString => split_ws_aux "" s'
           | _ => cur :: split_ws_aux "" s'
           end
      else split_ws_aux (cur ++ String c "") s'
  end.

Definition split_ws (s : string) : list string := split_ws_aux "" s.

(** [s.splitlines()]: a carriage return directly followed by a line feed
    is one boundary; no empty last line after a final boundary.
    [cr] says the previous character was a carriage return. *)
Fixpoint splitlines_aux (cr : bool) (cur : string) (s : string)
  : list string :=
  match s with
  | EmptyString =>
      match cur with EmptyString => [] | _ => [cur] end
  | String c s' =>
      if cr && Ascii.eqb c newline then splitlines_aux false cur s'
      else if islinebreak c
           then cur :: splitlines_aux (Ascii.eqb c "013"%char) "" s'
           else splitlines_aux false (cur ++ String c "") s'
  end.

Definition splitlines (s : string) : list string :=
  splitlines_aux false "" s.

(** [s.lstrip()] and [s.rstrip()] for the blanks of [int]. *)
Fixpoint lstrip (s : string) : string :=
  match s with
  | String c s' => if int_space c then lstrip s' else s
  | EmptyString => EmptyString
  end.

Fixpoint rstrip (s : string) : string :=
  match s with
  | EmptyString => EmptyString
  | String c s' =>
      match rstrip s' with
      | EmptyString => if int_space c then EmptyString else String c ""
      | r => String c r
      end
  end.

Definition digit_value (c : ascii) : Z := Z.of_N (code c) - 48.

(** The digits of a base-10 literal: decimal digits, single underscores
    allowed between two digits.  [prev] says the previous character was a
    digit. *)
Fixpoint int_digits (s : string) (acc : Z) (prev : bool) : option Z :=
  match s with
  | EmptyString => if prev then Some acc else None
  | String c s' =>
      if isdecimal c then int_digits s' (10 * acc + digit_value c) true
      else if Ascii.eqb c "_"%char
           then if prev then int_digits s' acc false else None
           else None
  end.

(** [int(s)] for text [s]; [None] stands for [ValueError].  The
    interpreter's configurable cap on the number of digits is outside
    the model. *)
Definition int (s : string) : option Z :=
  match rstrip (lstrip s) with
  | String "+" s' => int_digits s' 0 false
  | String "-" s' => Z.opp <$> int_digits s' 0 false
  | s' => int_digits s' 0 false
  end.

(** What [.] consumes greedily: everything up to the next line feed. *)
Fixpoint until_newline (s : string) : string :=
  match s with
  | EmptyString => EmptyString
  | String c s' =>
      if Ascii.eqb c newline then EmptyString else String c (until_newline s')
  end.

(** [re.match] at the start of [s] of the pattern made of the literal
    [key] (free of regex metacharacters), a colon, one [\s] and a greedy
    dot-star group; the result is group 1. *)
Definition match_attrib_here (key s : string) : option string :=
  if String.prefix (key ++ ":") s
  then match drop (String.length key + 1) s with
       | String c rest => if isspace c then Some (until_newline rest) else None
       | EmptyString => None
       end
  else None.

(** [re.search] of the same pattern: the leftmost position that matches;
    the result is group 1. *)
Fixpoint search_attrib (key s : string) : option string :=
  match match_attrib_here key s with
  | Some v => Some v
  | None =>
      match s with
      | EmptyString => None
      | String _ s' => search_attrib key s'
      end
  end.

(** The maximal run of decimal digits at the start of [s]. *)
Fixpoint digit_run (s : string) : string :=
  match s with
  | String c s' => if isdecimal c then String c (digit_run s') else EmptyString
  | EmptyString => EmptyString
  end.

(** [re.search(r'(\d+)', s)]: group 1 of the leftmost match. *)
Fixpoint search_digits (s : string) : option string :=
  match s with
  | EmptyString => None
  | String c s' => if isdecimal c then Some (digit_run s) else search_digits s'
  end.

End Py.

(** ** Values, exceptions *)

(** The values a Device Record holds. *)
Inductive pyval : Type :=
  | VNone
  | VInt (z : Z)
  | VStr (s : string).

#[global] Instance pyval_eq_dec : EqDecision pyval.
Proof. solve_decision. Defined.

Inductive exn : Type :=
  | KeyError
  | AttributeError
  | IndexError
  | IOError.

(** A computation that returns or raises. *)
Inductive result (A : Type) : Type :=
  | Ok (a : A)
  | Raise (e : exn).
Arguments Ok {A} a.
Arguments Raise {A} e.

#[global] Instance result_ret : MRet result := fun A a => Ok a.

#[global] Instance result_bind : MBind result := fun A B k m =>
  match m with
  | Ok a => k a
  | Raise e => Raise e
  end.

(** A [for] loop whose body may raise: the first exception ends it. *)
Fixpoint for_each {A S : Type} (body : A -> S -> result S) (l : list A) (s : S)
  : result S :=
  match l with
  | [] => Ok s
  | a :: l' => s' ← body a s; for_each body l' s'
  end.

(** ** The constants of [_geomconsts] *)

Module _geomconsts.

Definition GEOMNAME := "Geom name".
Definition MEDIASIZE := "Mediasize".
Definition SECTORSIZE := "Sectorsize".
Definition STRIPESIZE := "Stripesize".
Definition STRIPEOFFSET := "Stripeoffset".
Definition DESCR := "descr".
Definition LUNID := "lunid".
Definition LUNNAME := "lunname".
Definition IDENT := "ident".
Definition ROTATIONRATE := "rotationrate".

Definition _aliases : gmap string string :=
  <[DESCR := "device_model"]>
  (<[IDENT := "serial_number"]>
  (<[ROTATIONRATE := "media_RPM"]>
  (<[LUNID := "WWN"]> ∅))).

(** The regex literals of the table. *)
Inductive pattern : Type :=
  | PDigits (* r'(\d+)' *).

(** A coercion descriptor: a tag, or a pair of a tag and a pattern. *)
Inductive datatype : Type :=
  | DStr (tag : string)
  | DTuple (tag : string) (pat : pattern).

Definition _datatypes : gmap string datatype :=
  <[MEDIASIZE := DTuple "re_int" PDigits]>
  (<[SECTORSIZE := DStr "try_int"]>
  (<[STRIPESIZE := DStr "try_int"]>
  (<[STRIPEOFFSET := DStr "try_int"]>
  (<[ROTATIONRATE := DStr "try_int"]> ∅)))).

End _geomconsts.
Import _geomconsts.

(** [re.search(datatype[1], data)], group 1. *)
Definition re_search (pat : pattern) (data : string) : option string :=
  match pat with
  | PDigits => Py.search_digits data
  end.

(** [datatype is tuple]: identity with the type object [tuple].  A
    descriptor is [None], a string or a tuple, never the type itself. *)
Definition is_tuple (datatype : option datatype) : bool :=
  match datatype with
  | None => false
  | Some (DStr _) => false
  | Some (DTuple _ _) => false
  end.

Definition try_int (data : string) : pyval :=
  match Py.int data with
  | Some z => VInt z
  | None => VNone
  end.

Definition re_int (pat : pattern) (data : string) : pyval :=
  match re_search pat data with
  | Some g => try_int g
  | None => VNone
  end.

Definition _datavalue (datatype : option datatype) (data : string) : pyval :=
  match datatype with
  | Some (DStr "try_int") => try_int data
  | _ =>
      match is_tuple datatype, datatype with
      | true, Some (DTuple "re_int" pat) => re_int pat data
      | _, _ => VStr data
      end
  end.

(** The coercion as the specification words it: a descriptor of the
    regex-integer kind extracts digits, then parses them. *)
Definition _datavalue_spec (datatype : option datatype) (data : string)
  : pyval :=
  match datatype with
  | Some (DStr "try_int") => try_int data
  | Some (DTuple "re_int" pat) => re_int pat data
  | _ => VStr data
  end.

Definition _geom_attribs : list string :=
  [GEOMNAME; MEDIASIZE; SECTORSIZE; STRIPESIZE; STRIPEOFFSET;
   DESCR; LUNID; LUNNAME; IDENT; ROTATIONRATE].

(** ** FreeBSD: [_freebsd_geom] *)

(** The inventory of the FreeBSD branch. *)
Record geom_ret : Type := GeomRet {
  geom_disks : gmap string (gmap string pyval);
  geom_SSDs : list string
}.

(** One pass of the inner loop body of [parse_geom_attribs]. *)
Definition parse_attrib (line : string) (tmp : gmap string pyval)
  (attrib : string) : gmap string pyval :=
  match Py.search_attrib attrib line with
  | Some g =>
      let value := _datavalue (_datatypes !! attrib) g in
      let tmp := <[attrib := value]> tmp in
      match _aliases !! attrib with
      | Some alias => <[alias := value]> tmp
      | None => tmp
      end
  | None => tmp
  end.

Definition parse_line (tmp : gmap string pyval) (line : string)
  : gmap string pyval :=
  fold_left (parse_attrib line) _geom_attribs tmp.

(** The two nested loops: the attribute map of one block. *)
Definition parse_lines (device : string) : gmap string pyval :=
  fold_left parse_line (Py.split Py.nl device) ∅.

(** [tmp.get(ROTATIONRATE) == 0]. *)
Definition eq_zero (v : option pyval) : bool :=
  match v with
  | Some (VInt 0) => true
  | _ => false
  end.

Definition parse_geom_attribs (device : string) (ret : geom_ret)
  : result geom_ret :=
  let tmp := parse_lines device in
  match tmp !! GEOMNAME with
  | None => Raise KeyError
  | Some name =>
      let tmp := delete GEOMNAME tmp in
      match name with
      | VStr name =>
          if Py.startswith name "cd" then Ok ret
          else
            let disks := <[name := tmp]> (geom_disks ret) in
            if eq_zero (tmp !! ROTATIONRATE)
            then Ok (GeomRet disks (geom_SSDs ret ++ [name]))
            else Ok (GeomRet disks (geom_SSDs ret))
      | _ => Raise AttributeError
      end
  end.

Definition blank_line : string := Py.nl ++ Py.nl.

(** [devices] is the output of [geom disk list]. *)
Definition _freebsd_geom (devices : string) : result geom_ret :=
  for_each parse_geom_attribs (Py.split blank_line devices) (GeomRet ∅ []).

(** ** Linux: [_linux_disks] *)

(** The inventory of the Linux and Windows branches. *)
Record list_ret : Type := ListRet {
  ret_disks : list string;
  ret_SSDs : list string
}.

(** What a flag source does when it is opened and read. *)
Inductive source : Type :=
  | OpenFails                    (* [fopen] raises *)
  | ReadFails                    (* [read] raises *)
  | Content (text : string).     (* the file opens; [text] is what it reads *)

(** [fp.read(1)] on a file that holds [text]. *)
Definition read1 (text : string) : string :=
  match text with
  | EmptyString => EmptyString
  | String c _ => String c EmptyString
  end.

(** No character of [s] is a slash. *)
Definition no_slash (s : string) : bool :=
  Py.forallb_str (fun c => negb (Ascii.eqb c "/")) s.

(** [entry.split('/')[3]]. *)
Definition path_device (entry : string) : result string :=
  match Py.split "/" entry !! 3%nat with
  | Some device => Ok device
  | None => Raise IndexError
  end.

(** The source raises when it is opened or read. *)
Definition failing (src : source) : bool :=
  match src with
  | Content _ => false
  | _ => true
  end.

(** The body of the loop over the discovered paths. *)
Definition linux_entry (e : string * source) (ret : list_ret)
  : result list_ret :=
  let '(entry, src) := e in
  match src with
  | OpenFails => Raise IOError
  | _ =>
      device ← path_device entry;
      match src with
      | Content text =>
          let flag := read1 text in
          if String.eqb flag "0"
          then Ok (ListRet (ret_disks ret) (ret_SSDs ret ++ [device]))
          else if String.eqb flag "1"
          then Ok (ListRet (ret_disks ret ++ [device]) (ret_SSDs ret))
          else Ok ret
      | _ => Raise IOError
      end
  end.

(** [entries] is the result of the glob, each path with its source. *)
Definition _linux_disks (entries : list (string * source)) : result list_ret :=
  for_each linux_entry entries (ListRet [] []).

(** ** Windows: [_windows_disks] *)

(** The dictionary [cmd.run_all] returns. *)
Record cmdret : Type := CmdRet {
  retcode : Z;
  stdout : string;
  stderr : string
}.

Definition physical_drive (index : string) : string :=
  "\\.\PhysicalDrive" ++ index.

(** The shape test of a table row; [Some] holds the two tokens. *)
Definition valid_row (line : string) : option (string * string) :=
  match Py.split_ws line with
  | [i0; i1] =>
      if negb (Py.isdigit i0) || negb (Py.isdigit i1) then None
      else Some (i0, i1)
  | _ => None
  end.

(** The body of the loop over the lines of the table. *)
Definition windows_line (ret : list_ret) (line : string) : list_ret :=
  match valid_row line with
  | None => ret
  | Some (i0, mediatype) =>
      let device := physical_drive i0 in
      if String.eqb mediatype "3"
      then ListRet (ret_disks ret ++ [device]) (ret_SSDs ret)
      else if String.eqb mediatype "4"
      then ListRet (ret_disks ret) (ret_SSDs ret ++ [device])
      else ret
  end.

Definition _windows_disks (c : cmdret) : list_ret :=
  let ret := ListRet [] [] in
  if negb (retcode c =? 0) then ret
  else fold_left windows_line (Py.splitlines (stdout c)) ret.

(** ** The grain: [disks] *)

(** What the host answers to the module's queries. *)
Record host : Type := Host {
  is_freebsd : bool;
  is_linux : bool;
  is_windows : bool;
  geom_disk_list : string;                  (* output of [geom disk list] *)
  rotational : list (string * source);      (* the glob and the files *)
  wmic : cmdret                             (* result of the [wmic] query *)
}.

Inductive inventory : Type :=
  | Geom (r : geom_ret)
  | Lists (r : list_ret).

(** [None] is the value returned on an unsupported system. *)
Definition disks (h : host) : result (option inventory) :=
  if is_freebsd h then r ← _freebsd_geom (geom_disk_list h); Ok (Some (Geom r))
  else if is_linux h then r ← _linux_disks (rotational h); Ok (Some (Lists r))
  else if is_windows h then Ok (Some (Lists (_windows_disks (wmic h))))
  else Ok None.

(** The names in the [disks] collection and in the [SSDs] list. *)
Definition disk_names (i : inventory) : list string :=
  match i with
  | Geom r => elements (dom (geom_disks r))
  | Lists r => ret_disks r
  end.

Definition ssd_names (i : inventory) : list string :=
  match i with
  | Geom r => geom_SSDs r
  | Lists r => ret_SSDs r
  end.

(** ** Notions used to state the properties *)

(** The text captured on the last line of [lines] that matches [key]. *)
Definition last_match (key : string) (lines : list string) : option string :=
  fold_left (fun acc line =>
               match Py.search_attrib key line with
               | Some g => Some g
               | None => acc
               end) lines None.

Fixpoint lstrip_blanks (s : string) : string :=
  match s with
  | String c s' => if Py.isspace c then lstrip_blanks s' else s
  | EmptyString => EmptyString
  end.

Fixpoint before_colon (s : string) : string :=
  match s with
  | EmptyString => EmptyString
  | String c s' =>
      if Ascii.eqb c ":" then EmptyString else String c (before_colon s')
  end.

(** The key field of a [Key: value] line: the text before the first
    colon, without the indentation. *)
Definition key_field (line : string) : string :=
  before_colon (lstrip_blanks line).

(** The search, read as anchored: a line matches a recognized key only
    when its key field is that key. *)
Definition anchored_search : Prop :=
  forall attrib line g,
    attrib ∈ _geom_attribs ->
    Py.search_attrib attrib line = Some g -> key_field line = attrib.

(** The device names of the discovered paths. *)
Definition linux_devices (entries : list (string * source)) : list string :=
  omap (fun e => Py.split "/" e.1 !! 3%nat) entries.

(** The drive-index tokens of the valid rows of a table. *)
Definition windows_indices (lines : list string) : list string :=
  omap (fun line => fst <$> valid_row line) lines.

(** No name is in both lists. *)
Definition disjoint_lists (ret : list_ret) : Prop :=
  forall name, ~ (name ∈ ret_disks ret /\ name ∈ ret_SSDs ret).

(** One device is classified: appended to one list, or to none. *)
Definition classified (d : string) (ret ret' : list_ret) : Prop :=
  ret' = ret
  \/ ret' = ListRet (ret_disks ret) (ret_SSDs ret ++ [d])
  \/ ret' = ListRet (ret_disks ret ++ [d]) (ret_SSDs ret).

(** A scan classifies the devices of a list one after the other. *)
Inductive scanned : list string -> list_ret -> list_ret -> Prop :=
  | scanned_nil ret : scanned [] ret ret
  | scanned_cons d ds ret ret1 ret2 :
      classified d ret ret1 -> scanned ds ret1 ret2 ->
      scanned (d :: ds) ret ret2.

(** On FreeBSD every name of the SSDs list is a key of the mapping. *)
Definition ssds_in_disks (ret : geom_ret) : Prop :=
  forall name, name ∈ geom_SSDs ret -> is_Some (geom_disks ret !! name).

(** The invariant of the specification: no name is in both the [disks]
    collection and the [SSDs] list of what [disks] returns. *)
Definition no_name_in_both (h : host) : Prop :=
  forall inv name,
    disks h = Ok (Some inv) ->
    ~ (name ∈ disk_names inv /\ name ∈ ssd_names inv).

(** Three devices; the flag of the second cannot be opened. *)
Definition one_unreadable : host :=
  Host false true false ""
    [("/sys/block/sda/queue/rotational", Content ("1" ++ Py.nl));
     ("/sys/block/sdb/queue/rotational", OpenFails);
     ("/sys/block/sdc/queue/rotational", Content ("0" ++ Py.nl))]
    (CmdRet 0 "" "").

(** A FreeBSD host with one disk that reports rotation rate 0. *)
Definition one_geom_ssd : host :=
  Host true false false
    (Py.join Py.nl ["Geom name: ada0"; "Providers:"; "1. Name: ada0";
                    "   Mediasize: 500107862016 (466G)";
                    "   rotationrate: 0"])
    [] (CmdRet 0 "" "").

(** The inventory of that host. *)
Definition one_geom_ssd_ret : geom_ret :=
  GeomRet
    {[ "ada0" := <[MEDIASIZE := VStr "500107862016 (466G)"]>
                 (<[ROTATIONRATE := VInt 0]>
                 (<["media_RPM" := VInt 0]> ∅)) ]}
    ["ada0"].

(** The record of its disk. *)
Definition one_geom_ssd_record : gmap string pyval :=
  <[MEDIASIZE := VStr "500107862016 (466G)"]>
  (<[ROTATIONRATE := VInt 0]>
  (<["media_RPM" := VInt 0]> ∅)).

(** A Windows host whose table lists drive 0 under both media types. *)
Definition drive_listed_twice : host :=
  Host false false true "" []
    (CmdRet 0 (Py.join Py.nl ["DeviceID  MediaType"; "0 3"; "0 4"]) "").

(** The two hosts of the end-to-end examples. *)
Definition linux_example : host :=
  Host false true false ""
    [("/sys/block/sda/queue/rotational", Content ("1" ++ Py.nl));
     ("/sys/block/sdb/queue/rotational", Content ("0" ++ Py.nl))]
    (CmdRet 0 "" "").

Definition windows_example : host :=
  Host false false true "" []
    (CmdRet 0 (Py.join Py.nl ["DeviceID  MediaType"; "0 3"; "1 4"; ""]) "").

(** ** Notions used to state the properties of whole runs *)

(** The device name of a block, when it has one. *)
Definition block_name (device : string) : option string :=
  match parse_lines device !! GEOMNAME with
  | Some (VStr name) => Some name
  | _ => None
  end.

(** The name under which a block is entered in the mapping: none for an
    optical drive. *)
Definition block_disk (device : string) : option string :=
  match block_name device with
  | Some name => if Py.startswith name "cd" then None else Some name
  | None => None
  end.

(** The name a block adds to the SSDs list. *)
Definition block_ssd (device : string) : option string :=
  match block_disk device with
  | Some name =>
      if eq_zero (parse_lines device !! ROTATIONRATE) then Some name else None
  | None => None
  end.

(** The Device Record of a block. *)
Definition block_record (device : string) : gmap string pyval :=
  delete GEOMNAME (parse_lines device).

(** The mapping after the blocks of a list, one after the other. *)
Definition enter_block (m : gmap string (gmap string pyval)) (device : string)
  : gmap string (gmap string pyval) :=
  match block_disk device with
  | Some name => <[name := block_record device]> m
  | None => m
  end.

(** The keys coerced with ['try_int'] and the keys kept as text. *)
Definition int_keys : list string :=
  [SECTORSIZE; STRIPESIZE; STRIPEOFFSET; ROTATIONRATE].

Definition text_keys : list string := [DESCR; LUNID; LUNNAME; IDENT].

(** A recognized key or an alias. *)
Definition known_key (k : string) : Prop :=
  k ∈ _geom_attribs \/ exists a, _aliases !! a = Some k.

(** A value that is an integer or [None]. *)
Definition int_or_none (v : pyval) : Prop :=
  v = VNone \/ exists z, v = VInt z.

(** The device a flag source adds to the disks list, and to the SSDs
    list. *)
Definition linux_hdd (e : string * source) : option string :=
  match e.2 with
  | Content text =>
      if String.eqb (read1 text) "1" then Py.split "/" e.1 !! 3%nat else None
  | _ => None
  end.

Definition linux_ssd (e : string * source) : option string :=
  match e.2 with
  | Content text =>
      if String.eqb (read1 text) "0" then Py.split "/" e.1 !! 3%nat else None
  | _ => None
  end.

(** The identifier a table line adds to the disks list, and to the SSDs
    list. *)
Definition row_hdd (line : string) : option string :=
  match valid_row line with
  | Some (i0, mediatype) =>
      if String.eqb mediatype "3" then Some (physical_drive i0) else None
  | None => None
  end.

Definition row_ssd (line : string) : option string :=
  match valid_row line with
  | Some (i0, mediatype) =>
      if String.eqb mediatype "4" then Some (physical_drive i0) else None
  | None => None
  end.

(** A run of blanks, and a text free of line feeds. *)
Definition blanks (s : string) : bool := Py.forallb_str Py.isspace s.

Definition no_newline (s : string) : bool :=
  Py.forallb_str (fun c => negb (Ascii.eqb c Py.newline)) s.

(** A FreeBSD host with two blocks of one name and an optical drive. *)
Definition geom_renamed : host :=
  Host true false false
    (Py.join Py.nl ["Geom name: ada0"; "   descr: old"; "   rotationrate: 0";
                    "";
                    "Geom name: cd0"; "   rotationrate: 0";
                    "";
                    "Geom name: ada0"; "   descr: new";
                    "   rotationrate: 7200"])
    [] (CmdRet 0 "" "").

(** * Properties *)

(** ** Text lemmas *)

Example split_blank_lines :
  Py.split (Py.nl ++ Py.nl) (Py.join Py.nl ["a"; ""; ""; "b"])
  = ["a"; Py.nl ++ "b"].
Proof. reflexivity. Qed.

Example splitlines_crlf :
  Py.splitlines ("a" ++ String "013" Py.nl ++ "b" ++ Py.nl ++ String "013" "c"
                 ++ Py.nl)
  = ["a"; "b"; ""; "c"].
Proof. reflexivity. Qed.

Example split_ws_runs : Py.split_ws "  a  b " = ["a"; "b"].
Proof. reflexivity. Qed.

Example int_examples :
  Py.int " 0_0 " = Some 0 /\ Py.int "-12" = Some (-12) /\ Py.int "+" = None
  /\ Py.int "1_" = None /\ Py.int "007" = Some 7 /\ Py.int "" = None
  /\ Py.int "512 bytes" = None.
Proof. repeat split; reflexivity. Qed.

Section Text.

Lemma app_nil_l (t : string) : "" ++ t = t.
Proof. reflexivity. Qed.

Lemma app_cons (c : ascii) (s t : string) :
  String c s ++ t = String c (s ++ t).
Proof. reflexivity. Qed.

Lemma app_nil_r (s : string) : s ++ "" = s.
Proof.
  induction s as [|c s IH]; [reflexivity | now rewrite app_cons, IH].
Qed.

Lemma app_assoc (s t u : string) : (s ++ t) ++ u = s ++ t ++ u.
Proof.
  induction s as [|c s IH]; [reflexivity | now rewrite !app_cons, IH].
Qed.

Lemma app_snoc (s t : string) (c : ascii) :
  (s ++ String c "") ++ t = s ++ String c t.
Proof. now rewrite app_assoc. Qed.

Lemma app_length (s t : string) :
  String.length (s ++ t) = (String.length s + String.length t)%nat.
Proof.
  induction s as [|c s IH]; [reflexivity | rewrite app_cons; simpl; now rewrite IH].
Qed.

Lemma prefix_nil (s : string) : String.prefix "" s = true.
Proof. now destruct s. Qed.

Lemma prefix_char (a c : ascii) (s : string) :
  String.prefix (String a "") (String c s) = Ascii.eqb a c.
Proof.
  simpl. rewrite prefix_nil.
  destruct (ascii_dec a c) as [-> | Hne].
  - now rewrite Ascii.eqb_refl.
  - symmetry. now apply Ascii.eqb_neq.
Qed.

Lemma prefix_app (s t : string) : String.prefix s (s ++ t) = true.
Proof.
  induction s as [|c s IH]; [now destruct t |].
  rewrite app_cons; simpl.
  destruct (ascii_dec c c); [exact IH | congruence].
Qed.

Lemma drop_app (s t : string) : Py.drop (String.length s) (s ++ t) = t.
Proof.
  induction s as [|c s IH]; [now destruct t | rewrite app_cons; exact IH].
Qed.

(** No digit character is a blank. *)
Lemma isdigit_char_not_space (c : ascii) :
  Py.isdigit_char c = true -> Py.isspace c = false.
Proof.
  destruct c as [[] [] [] [] [] [] [] []]; vm_compute; congruence.
Qed.

Lemma isdigit_forallb (s : string) :
  Py.isdigit s = true -> Py.forallb_str Py.isdigit_char s = true.
Proof. destruct s; [discriminate | exact (fun H => H)]. Qed.

(** A run of digits is read into the current token whole. *)
Lemma split_ws_aux_digits (d cur rest : string) :
  Py.forallb_str Py.isdigit_char d = true ->
  Py.split_ws_aux cur (d ++ rest) = Py.split_ws_aux (cur ++ d) rest.
Proof.
  revert cur; induction d as [|c d IH]; intros cur H.
  - now rewrite app_nil_l, app_nil_r.
  - simpl in H. apply andb_prop in H as [Hc Hd].
    rewrite app_cons; simpl.
    rewrite (isdigit_char_not_space c Hc), (IH _ Hd).
    now rewrite app_snoc.
Qed.

(** Two digit tokens separated by one space split into those two. *)
Lemma split_ws_row (d m : string) :
  Py.isdigit d = true -> Py.isdigit m = true ->
  Py.split_ws (d ++ " " ++ m) = [d; m].
Proof.
  intros Hd Hm. unfold Py.split_ws.
  rewrite (split_ws_aux_digits d "" _ (isdigit_forallb _ Hd)).
  rewrite app_nil_l, app_cons, app_nil_l; simpl.
  destruct d as [|c d]; [discriminate |].
  f_equal.
  rewrite <- (app_nil_r m) at 1.
  rewrite (split_ws_aux_digits m "" "" (isdigit_forallb _ Hm)).
  rewrite app_nil_l; simpl.
  destruct m; [discriminate | reflexivity].
Qed.

End Text.

(** ** Windows *)

Section Windows.

Lemma valid_row_digits (d m : string) :
  Py.isdigit d = true -> Py.isdigit m = true ->
  valid_row (d ++ " " ++ m) = Some (d, m).
Proof.
  intros Hd Hm. unfold valid_row.
  now rewrite (split_ws_row d m Hd Hm), Hd, Hm.
Qed.

Lemma valid_row_iff (line : string) (d m : string) :
  valid_row line = Some (d, m) <->
  Py.split_ws line = [d; m] /\ Py.isdigit d = true /\ Py.isdigit m = true.
Proof.
  unfold valid_row.
  destruct (Py.split_ws line) as [|a [|b [|c l]]]; try (split; [discriminate | intros [? _]; discriminate]).
  split.
  - destruct (Py.isdigit a) eqn:Ha, (Py.isdigit b) eqn:Hb; simpl; try discriminate.
    intros [= <- <-]. auto.
  - intros [[= -> ->] [-> ->]]. reflexivity.
Qed.

Lemma windows_line_hdd (line d : string) (ret : list_ret) :
  valid_row line = Some (d, "3") ->
  windows_line ret line
  = ListRet (ret_disks ret ++ [physical_drive d]) (ret_SSDs ret).
Proof. intros H. unfold windows_line. now rewrite H. Qed.

Lemma windows_line_ssd (line d : string) (ret : list_ret) :
  valid_row line = Some (d, "4") ->
  windows_line ret line
  = ListRet (ret_disks ret) (ret_SSDs ret ++ [physical_drive d]).
Proof. intros H. unfold windows_line. now rewrite H. Qed.

Lemma windows_line_other (line d m : string) (ret : list_ret) :
  valid_row line = Some (d, m) -> m <> "3" -> m <> "4" ->
  windows_line ret line = ret.
Proof.
  intros H H3 H4. unfold windows_line. rewrite H.
  apply String.eqb_neq in H3, H4. now rewrite H3, H4.
Qed.

Lemma windows_line_invalid (line : string) (ret : list_ret) :
  valid_row line = None -> windows_line ret line = ret.
Proof. intros H. unfold windows_line. now rewrite H. Qed.

(** C6: with exit status 0 the table is read line by line; a line is a
    valid data row iff splitting it on whitespace gives exactly two
    tokens, both of digits only; a valid row [<digits> 3] appends
    [\\.\PhysicalDrive<digits>] to the disks list only, [<digits> 4] to the
    SSDs list only, and every other line leaves the result unchanged. *)
Theorem windows_row_classified (line : string) (ret : list_ret) :
  (forall c, retcode c = 0 ->
     _windows_disks c
     = fold_left windows_line (Py.splitlines (stdout c)) (ListRet [] []))
  /\ (is_Some (valid_row line) <->
      exists d m, Py.split_ws line = [d; m]
                  /\ Py.isdigit d = true /\ Py.isdigit m = true)
  /\ (forall d, Py.isdigit d = true ->
       windows_line ret (d ++ " 3")
       = ListRet (ret_disks ret ++ [physical_drive d]) (ret_SSDs ret)
       /\ windows_line ret (d ++ " 4")
          = ListRet (ret_disks ret) (ret_SSDs ret ++ [physical_drive d]))
  /\ (forall d, valid_row line = Some (d, "3") ->
       windows_line ret line
       = ListRet (ret_disks ret ++ [physical_drive d]) (ret_SSDs ret))
  /\ (forall d, valid_row line = Some (d, "4") ->
       windows_line ret line
       = ListRet (ret_disks ret) (ret_SSDs ret ++ [physical_drive d]))
  /\ ((forall d, valid_row line <> Some (d, "3")) ->
      (forall d, valid_row line <> Some (d, "4")) ->
      windows_line ret line = ret).
Proof.
  split; [| split; [| split; [| split; [| split]]]].
  - intros c Hc. unfold _windows_disks. now rewrite Hc.
  - split.
    + intros [[d m] H]. exists d, m. now apply valid_row_iff.
    + intros (d & m & H). exists (d, m). now apply valid_row_iff.
  - intros d Hd. split.
    + apply windows_line_hdd. now apply (valid_row_digits d "3").
    + apply windows_line_ssd. now apply (valid_row_digits d "4").
  - intros d. apply windows_line_hdd.
  - intros d. apply windows_line_ssd.
  - intros H3 H4. destruct (valid_row line) as [[d m]|] eqn:H.
    + apply (windows_line_other line d m); [exact H | |]; intros ->.
      * now apply (H3 d). 
      * now apply (H4 d).
    + now apply windows_line_invalid.
Qed.

(** C10: the media type is compared as text with ['3'] and ['4']: a row
    whose second token is numeric with leading zeros, such as [0 03] or
    [1 004], passes the shape test and is then classified as neither,
    although the token's value is 3 or 4. *)
Theorem windows_leading_zeros_skipped (ret : list_ret) :
  (valid_row "0 03" = Some ("0", "03") /\ Py.int "03" = Some 3
   /\ windows_line ret "0 03" = ret)
  /\ (valid_row "1 004" = Some ("1", "004") /\ Py.int "004" = Some 4
      /\ windows_line ret "1 004" = ret)
  /\ (forall d m, Py.isdigit d = true -> Py.isdigit m = true ->
       m <> "3" -> m <> "4" ->
       valid_row (d ++ " " ++ m) = Some (d, m)
       /\ windows_line ret (d ++ " " ++ m) = ret).
Proof.
  split; [| split].
  - repeat split; reflexivity.
  - repeat split; reflexivity.
  - intros d m Hd Hm H3 H4. split; [now apply valid_row_digits |].
    apply (windows_line_other _ d m); auto using valid_row_digits.
Qed.

(** C8: when the management query exits with a non-zero status, [disks]
    returns the empty inventory and raises nothing, whatever the command
    wrote to its output streams. *)
Theorem windows_nonzero_exit_empty (h : host) :
  is_freebsd h = false -> is_linux h = false -> is_windows h = true ->
  retcode (wmic h) <> 0 ->
  disks h = Ok (Some (Lists (ListRet [] []))).
Proof.
  intros Hf Hl Hw Hrc. unfold disks, _windows_disks.
  rewrite Hf, Hl, Hw.
  apply Z.eqb_neq in Hrc. now rewrite Hrc.
Qed.

Lemma windows_nonzero_exit_empty_witness :
  disks (Host false false true "" [] (CmdRet 1 "0 3" "Invalid namespace"))
  = Ok (Some (Lists (ListRet [] []))).
Proof.
  apply windows_nonzero_exit_empty; [reflexivity | reflexivity | reflexivity |].
  simpl. lia.
Defined.

(** The end-to-end example of the Windows branch. *)
Example windows_end_to_end :
  disks windows_example
  = Ok (Some (Lists (ListRet ["\\.\PhysicalDrive0"] ["\\.\PhysicalDrive1"]))).
Proof. reflexivity. Qed.

End Windows.

(** ** Linux *)

Section Linux.

(** A path segment free of slashes is read up to the next slash. *)
Lemma split_slash_segment (name cur rest : string) :
  no_slash name = true ->
  Py.split_aux "/" 0 cur (name ++ String "/" rest)
  = (cur ++ name) :: Py.split_aux "/" 0 "" rest.
Proof.
  revert cur; induction name as [|c name IH]; intros cur H.
  - rewrite app_nil_l, app_nil_r.
    cbn [Py.split_aux]. now rewrite prefix_char.
  - unfold no_slash in H; simpl in H. apply andb_prop in H as [Hc Hn].
    rewrite app_cons. cbn [Py.split_aux]. rewrite prefix_char.
    rewrite Ascii.eqb_sym. apply negb_true_iff in Hc. rewrite Hc.
    rewrite (IH _ Hn). now rewrite app_snoc.
Qed.

(** The device of a path of the glob's shape is its starred segment. *)
Lemma path_device_glob (name : string) :
  no_slash name = true ->
  path_device ("/sys/block/" ++ name ++ "/queue/rotational") = Ok name.
Proof.
  intros H. unfold path_device, Py.split.
  change ("/sys/block/" ++ name ++ "/queue/rotational")
    with ("" ++ String "/" ("sys" ++ String "/" ("block" ++ String "/"
            (name ++ String "/" "queue/rotational")))).
  rewrite (split_slash_segment "" "" _ eq_refl).
  rewrite (split_slash_segment "sys" "" _ eq_refl).
  rewrite (split_slash_segment "block" "" _ eq_refl).
  rewrite (split_slash_segment name "" _ H).
  reflexivity.
Qed.

(** C4: for a flag source that opens and reads, the character read
    decides alone: ['0'] appends the device name, the segment at index 3
    of the path, to the SSDs list only, ['1'] to the disks list only, and
    anything else to neither; the name never comes from the flag. *)
Theorem linux_flag_classified (entry device text : string) (ret : list_ret) :
  Py.split "/" entry !! 3%nat = Some device ->
  (read1 text = "0" ->
     linux_entry (entry, Content text) ret
     = Ok (ListRet (ret_disks ret) (ret_SSDs ret ++ [device])))
  /\ (read1 text = "1" ->
       linux_entry (entry, Content text) ret
       = Ok (ListRet (ret_disks ret ++ [device]) (ret_SSDs ret)))
  /\ (read1 text <> "0" -> read1 text <> "1" ->
       linux_entry (entry, Content text) ret = Ok ret)
  /\ (forall name, no_slash name = true ->
       Py.split "/" ("/sys/block/" ++ name ++ "/queue/rotational") !! 3%nat
       = Some name).
Proof.
  intros Hdev.
  split; [| split; [| split]];
    [unfold linux_entry, path_device; rewrite Hdev; simpl .. |].
  - intros ->. reflexivity.
  - intros ->. reflexivity.
  - intros H0 H1. apply String.eqb_neq in H0, H1. now rewrite H0, H1.
  - intros name Hn. pose proof (path_device_glob name Hn) as H.
    unfold path_device in H.
    destruct (Py.split "/" ("/sys/block/" ++ name ++ "/queue/rotational")
                !! 3%nat) as [d|]; [| discriminate].
    injection H as ->. reflexivity.
Qed.

Lemma linux_flag_classified_witness :
  linux_entry ("/sys/block/sda/queue/rotational", Content ("0" ++ Py.nl))
              (ListRet ["sdb"] [])
  = Ok (ListRet ["sdb"] ["sda"]).
Proof.
  apply (linux_flag_classified "/sys/block/sda/queue/rotational" "sda");
    reflexivity.
Defined.

(** The end-to-end example of the Linux branch. *)
Example linux_end_to_end :
  disks linux_example
  = Ok (Some (Lists (ListRet ["sda"] ["sdb"]))).
Proof. reflexivity. Qed.

(** A source that opens and reads never stops the scan. *)
Lemma linux_entry_content (entry text : string) (ret : list_ret) :
  is_Some (Py.split "/" entry !! 3%nat) ->
  exists ret', linux_entry (entry, Content text) ret = Ok ret'.
Proof.
  intros [device Hdev]. unfold linux_entry, path_device. rewrite Hdev. simpl.
  destruct (String.eqb (read1 text) "0"); [eauto |].
  destruct (String.eqb (read1 text) "1"); eauto.
Qed.

(** A source that fails raises out of the loop body. *)
Lemma linux_entry_failing (entry : string) (src : source) (ret : list_ret) :
  is_Some (Py.split "/" entry !! 3%nat) -> failing src = true ->
  linux_entry (entry, src) ret = Raise IOError.
Proof.
  intros [device Hdev] Hf. unfold linux_entry, path_device.
  destruct src; [reflexivity | | discriminate].
  now rewrite Hdev.
Qed.

Lemma linux_scan_outcome (entries : list (string * source)) (ret : list_ret) :
  Forall (fun e => is_Some (Py.split "/" e.1 !! 3%nat)) entries ->
  (Exists (fun e => failing e.2 = true) entries ->
     for_each linux_entry entries ret = Raise IOError)
  /\ (Forall (fun e => failing e.2 = false) entries ->
      exists ret', for_each linux_entry entries ret = Ok ret').
Proof.
  intros Hp. revert ret.
  induction Hp as [|[entry src] entries He Hp IH]; intros ret.
  - split; [intros H; inversion H | eauto].
  - simpl in He. split.
    + intros Hex. cbn [for_each].
      destruct (failing src) eqn:Hf.
      * now rewrite (linux_entry_failing entry src ret He Hf).
      * destruct src; try discriminate.
        destruct (linux_entry_content entry text ret He) as [ret' ->].
        apply Exists_cons in Hex as [Hex | Hex]; [simpl in Hex; congruence |].
        now apply IH.
    + intros Hall. apply Forall_cons in Hall as [Hf Hall]. simpl in Hf.
      destruct src; try discriminate.
      cbn [for_each].
      destruct (linux_entry_content entry text ret He) as [ret' ->].
      now apply IH.
Qed.

(** C5, as the code has it: an I/O error on one flag source is not
    caught; it ends the scan and leaves [disks] through the caller, so
    no inventory is returned.  An inventory is returned when every source
    opens and reads. *)
Theorem linux_io_error_propagates (h : host) :
  is_freebsd h = false -> is_linux h = true ->
  Forall (fun e => is_Some (Py.split "/" e.1 !! 3%nat)) (rotational h) ->
  (Exists (fun e => failing e.2 = true) (rotational h) ->
     disks h = Raise IOError)
  /\ (Forall (fun e => failing e.2 = false) (rotational h) ->
      exists r, disks h = Ok (Some (Lists r))).
Proof.
  intros Hf Hl Hp. unfold disks, _linux_disks. rewrite Hf, Hl.
  destruct (linux_scan_outcome (rotational h) (ListRet [] []) Hp) as [Hex Hall].
  split.
  - intros H. now rewrite (Hex H).
  - intros H. destruct (Hall H) as [r ->]. eauto.
Qed.

Lemma linux_io_error_propagates_witness : disks one_unreadable = Raise IOError.
Proof.
  apply (linux_io_error_propagates one_unreadable);
    [reflexivity | reflexivity | |].
  - repeat constructor; simpl; eexists; reflexivity.
  - apply Exists_cons_tl, Exists_cons_hd. reflexivity.
Defined.

(** C5 as stated fails: with one unreadable flag among three devices
    [disks] raises instead of returning the inventory of the other two. *)
Lemma linux_io_error_not_skipped :
  disks one_unreadable = Raise IOError
  /\ ~ (exists r, disks one_unreadable = Ok (Some (Lists r))).
Proof.
  split; [reflexivity |].
  intros [r H]. vm_compute in H. discriminate.
Qed.

End Linux.

(** ** FreeBSD *)

Section FreeBSD.

Lemma prefix_drop (p s : string) :
  String.prefix p s = true -> s = p ++ Py.drop (String.length p) s.
Proof.
  revert s; induction p as [|a p IH]; intros s H; [reflexivity |].
  destruct s as [|c s]; [discriminate |]. simpl in H.
  destruct (ascii_dec a c) as [-> | _]; [| discriminate].
  rewrite app_cons. simpl. f_equal. now apply IH.
Qed.

Lemma match_attrib_here_Some (key s g : string) :
  Py.match_attrib_here key s = Some g ->
  exists c post, s = key ++ ":" ++ String c post
                 /\ Py.isspace c = true /\ g = Py.until_newline post.
Proof.
  unfold Py.match_attrib_here.
  destruct (String.prefix (key ++ ":") s) eqn:Hp; [| discriminate].
  apply prefix_drop in Hp. rewrite app_length in Hp. simpl in Hp.
  destruct (Py.drop (String.length key + 1) s) as [|c post]; [discriminate |].
  destruct (Py.isspace c) eqn:Hc; [| discriminate].
  intros [= <-]. exists c, post. rewrite app_assoc in Hp. auto.
Qed.

Lemma match_attrib_here_app (key post : string) (c : ascii) :
  Py.isspace c = true ->
  Py.match_attrib_here key (key ++ ":" ++ String c post)
  = Some (Py.until_newline post).
Proof.
  intros Hc. unfold Py.match_attrib_here.
  rewrite <- app_assoc, prefix_app.
  replace (String.length key + 1)%nat with (String.length (key ++ ":"))
    by (rewrite app_length; reflexivity).
  now rewrite drop_app, Hc.
Qed.

Lemma search_attrib_Some (key line g : string) :
  Py.search_attrib key line = Some g ->
  exists pre c post, line = pre ++ key ++ ":" ++ String c post
                     /\ Py.isspace c = true /\ g = Py.until_newline post.
Proof.
  induction line as [|a line IH]; cbn [Py.search_attrib].
  - destruct (Py.match_attrib_here key "") eqn:Hm; [| discriminate].
    intros [= <-]. apply match_attrib_here_Some in Hm as (c & post & ? & ? & ?).
    exists "", c, post. auto.
  - destruct (Py.match_attrib_here key (String a line)) eqn:Hm.
    + intros [= <-].
      apply match_attrib_here_Some in Hm as (c & post & ? & ? & ?).
      exists "", c, post. auto.
    + intros H. destruct (IH H) as (pre & c & post & -> & ? & ?).
      exists (String a pre), c, post. auto.
Qed.

Lemma search_attrib_contains (key pre post : string) (c : ascii) :
  Py.isspace c = true ->
  is_Some (Py.search_attrib key (pre ++ key ++ ":" ++ String c post)).
Proof.
  intros Hc. induction pre as [|a pre IH].
  - rewrite app_nil_l.
    assert (Py.search_attrib key (key ++ ":" ++ String c post)
            = Some (Py.until_newline post)) as ->; [| eauto].
    pose proof (match_attrib_here_app key post c Hc) as Hm.
    destruct (key ++ ":" ++ String c post); cbn [Py.search_attrib];
      now rewrite Hm.
  - rewrite app_cons. cbn [Py.search_attrib].
    destruct (Py.match_attrib_here key _); [eauto | exact IH].
Qed.

(** *** The attribute map of a block *)

Lemma geom_attribs_NoDup : NoDup _geom_attribs.
Proof. compute_done. Qed.

(** No alias is itself a recognized key. *)
Lemma alias_not_attrib (attrib alias : string) :
  _aliases !! attrib = Some alias -> alias ∉ _geom_attribs.
Proof.
  unfold _aliases. rewrite !lookup_insert_Some, lookup_empty.
  intros H.
  repeat (destruct H as [[_ <-] | [_ H]];
          [compute_done |]).
  discriminate.
Qed.

Lemma parse_attrib_lookup_same (line attrib : string) (tmp : gmap string pyval) :
  parse_attrib line tmp attrib !! attrib
  = match Py.search_attrib attrib line with
    | Some g => Some (_datavalue (_datatypes !! attrib) g)
    | None => tmp !! attrib
    end.
Proof.
  unfold parse_attrib. destruct (Py.search_attrib attrib line) as [g|]; [| reflexivity].
  destruct (_aliases !! attrib) as [alias|]; [| apply lookup_insert_eq].
  destruct (decide (alias = attrib)) as [-> | Hne].
  - apply lookup_insert_eq.
  - rewrite lookup_insert_ne by exact Hne. apply lookup_insert_eq.
Qed.

Lemma parse_attrib_lookup_other (line attrib k : string)
  (tmp : gmap string pyval) :
  k <> attrib -> _aliases !! attrib <> Some k ->
  parse_attrib line tmp attrib !! k = tmp !! k.
Proof.
  intros Hk Ha. unfold parse_attrib.
  destruct (Py.search_attrib attrib line) as [g|]; [| reflexivity].
  destruct (_aliases !! attrib) as [alias|].
  - rewrite lookup_insert_ne by congruence. now rewrite lookup_insert_ne.
  - now rewrite lookup_insert_ne.
Qed.

Lemma fold_parse_attrib_other (l : list string) (line k : string)
  (tmp : gmap string pyval) :
  k ∉ l -> (forall a, a ∈ l -> _aliases !! a <> Some k) ->
  fold_left (parse_attrib line) l tmp !! k = tmp !! k.
Proof.
  revert tmp; induction l as [|a l IH]; intros tmp Hk Ha; [reflexivity |].
  apply not_elem_of_cons in Hk as [Hka Hkl]. cbn [fold_left].
  rewrite IH; [| exact Hkl | intros b Hb; apply Ha; now right].
  apply parse_attrib_lookup_other; [exact Hka | apply Ha; now left].
Qed.

Lemma fold_parse_attrib_same (l : list string) (line k : string)
  (tmp : gmap string pyval) :
  NoDup l -> k ∈ l -> (forall a, a ∈ l -> _aliases !! a <> Some k) ->
  fold_left (parse_attrib line) l tmp !! k
  = match Py.search_attrib k line with
    | Some g => Some (_datavalue (_datatypes !! k) g)
    | None => tmp !! k
    end.
Proof.
  revert tmp; induction l as [|a l IH]; intros tmp Hnd Hk Ha.
  - now apply elem_of_nil in Hk.
  - apply NoDup_cons in Hnd as [Hal Hnd]. cbn [fold_left].
    assert (forall b, b ∈ l -> _aliases !! b <> Some k) as Ha'
      by (intros b Hb; apply Ha; now right).
    destruct (decide (k = a)) as [-> | Hne].
    + rewrite fold_parse_attrib_other by assumption.
      apply parse_attrib_lookup_same.
    + apply elem_of_cons in Hk as [-> | Hk]; [congruence |].
      rewrite IH by assumption.
      rewrite parse_attrib_lookup_other; [reflexivity | exact Hne |].
      apply Ha. now left.
Qed.

(** One line: a recognized key holds the coerced capture of the line, or
    what it held before when the line does not match. *)
Lemma parse_line_lookup (line k : string) (tmp : gmap string pyval) :
  k ∈ _geom_attribs ->
  parse_line tmp line !! k
  = match Py.search_attrib k line with
    | Some g => Some (_datavalue (_datatypes !! k) g)
    | None => tmp !! k
    end.
Proof.
  intros Hk. apply fold_parse_attrib_same;
    [exact geom_attribs_NoDup | exact Hk |].
  intros a _ Ha. now apply alias_not_attrib in Ha.
Qed.

(** A block: a recognized key holds the coerced capture of the last line
    that matches it. *)
Lemma parse_lines_lookup (device k : string) :
  k ∈ _geom_attribs ->
  parse_lines device !! k
  = _datavalue (_datatypes !! k) <$> last_match k (Py.split Py.nl device).
Proof.
  intros Hk. unfold parse_lines, last_match.
  generalize (Py.split Py.nl device) as lines.
  assert ((∅ : gmap string pyval) !! k
          = _datavalue (_datatypes !! k) <$> None) as H0 by apply lookup_empty.
  revert H0. generalize (@None string) as acc.
  generalize (∅ : gmap string pyval) as tmp.
  intros tmp acc H0 lines. revert tmp acc H0.
  induction lines as [|line lines IH]; intros tmp acc H0; [exact H0 |].
  cbn [fold_left]. apply IH.
  rewrite (parse_line_lookup line k tmp Hk).
  destruct (Py.search_attrib k line); [reflexivity | exact H0].
Qed.

Lemma geomname_in : GEOMNAME ∈ _geom_attribs.
Proof. compute_done. Qed.

Lemma rotationrate_in : ROTATIONRATE ∈ _geom_attribs.
Proof. compute_done. Qed.

(** The device name, when there is one, is text. *)
Lemma geomname_is_text (device : string) (v : pyval) :
  parse_lines device !! GEOMNAME = Some v -> exists name, v = VStr name.
Proof.
  rewrite (parse_lines_lookup device GEOMNAME geomname_in).
  destruct (last_match GEOMNAME _) as [g|]; [| discriminate].
  intros [= <-]. exists g. reflexivity.
Qed.

(** The rotation rate, when there is one, is the integer read from the
    last matching line, or [None] when that text is no integer. *)
Lemma rotationrate_is_try_int (device : string) :
  parse_lines device !! ROTATIONRATE
  = try_int <$> last_match ROTATIONRATE (Py.split Py.nl device).
Proof. apply (parse_lines_lookup device ROTATIONRATE rotationrate_in). Qed.

(** *** Coercion of the media size *)

(** C1: the descriptor of [Mediasize] is the pair of ['re_int'] and the
    digit pattern, and the specification has the parser extract the
    digits and store the integer.  The coercion tests the descriptor
    with [is tuple], which no descriptor passes, so the branch is dead:
    the raw capture is stored as text, for every input. *)
Theorem mediasize_kept_raw :
  _datatypes !! MEDIASIZE = Some (DTuple "re_int" PDigits)
  /\ (forall data, _datavalue (_datatypes !! MEDIASIZE) data = VStr data)
  /\ _datavalue_spec (_datatypes !! MEDIASIZE) "500107862016 (466G)"
     = VInt 500107862016
  /\ parse_lines (Py.join Py.nl ["Geom name: ada0";
                                 "   Mediasize: 500107862016 (466G)"])
     !! MEDIASIZE
     = Some (VStr "500107862016 (466G)").
Proof.
  assert (_datatypes !! MEDIASIZE = Some (DTuple "re_int" PDigits)) as H
    by reflexivity.
  split; [exact H |]. rewrite H.
  split; [reflexivity |]. split; vm_compute; reflexivity.
Qed.

(** *** Blocks without a device name *)

(** C2: a block with no device-name line should be skipped without an
    error.  The name is popped from the attribute map with no default:
    on such a block, the empty one included, [KeyError] is raised and
    leaves [disks]; the records of the earlier blocks are lost with it. *)
Theorem nameless_block_raises :
  (forall ret, parse_geom_attribs "" ret = Raise KeyError)
  /\ _freebsd_geom "" = Raise KeyError
  /\ _freebsd_geom (Py.join Py.nl ["Geom name: ada0"; "   rotationrate: 0";
                                   ""; ""])
     = Raise KeyError
  /\ disks (Host true false false
              (Py.join Py.nl ["Geom name: ada0"; "   rotationrate: 0"; ""; ""])
              [] (CmdRet 0 "" ""))
     = Raise KeyError.
Proof. repeat split; vm_compute; reflexivity. Qed.

(** *** The attribute search *)

(** C3 as stated fails: the line [xdescr: Virtual disk] has the key field
    [xdescr], yet the search for [descr] matches it and the value is
    stored under [descr] and its alias. *)
Lemma search_not_anchored :
  key_field "   xdescr: Virtual disk" = "xdescr"
  /\ Py.search_attrib DESCR "   xdescr: Virtual disk" = Some "Virtual disk"
  /\ parse_lines "   xdescr: Virtual disk" !! DESCR
     = Some (VStr "Virtual disk")
  /\ ~ anchored_search.
Proof.
  split; [reflexivity |]. split; [reflexivity |].
  split; [vm_compute; reflexivity |].
  intros H.
  specialize (H DESCR "   xdescr: Virtual disk" "Virtual disk").
  assert (DESCR ∈ _geom_attribs) as Hin by compute_done.
  specialize (H Hin eq_refl). vm_compute in H. discriminate.
Qed.

Lemma app_same_length (p q x y : string) :
  String.length p = String.length q -> p ++ x = q ++ y -> p = q /\ x = y.
Proof.
  revert q; induction p as [|a p IH]; intros [|b q] Hlen Heq;
    try discriminate.
  - auto.
  - rewrite !app_cons in Heq. injection Heq as -> Heq.
    injection Hlen as Hlen. destruct (IH q Hlen Heq) as [-> ->]. auto.
Qed.

(** The search returns the capture of the leftmost place that matches:
    no place before it holds the key, a colon and a blank. *)
Lemma search_attrib_leftmost (key line g : string) :
  Py.search_attrib key line = Some g ->
  exists pre c post,
    line = pre ++ key ++ ":" ++ String c post
    /\ Py.isspace c = true /\ g = Py.until_newline post
    /\ (forall pre' c' post',
          line = pre' ++ key ++ ":" ++ String c' post' ->
          Py.isspace c' = true ->
          (String.length pre <= String.length pre')%nat).
Proof.
  induction line as [|a line IH]; cbn [Py.search_attrib].
  - destruct (Py.match_attrib_here key "") eqn:Hm; [| discriminate].
    intros [= <-]. apply match_attrib_here_Some in Hm as (c & post & ? & ? & ?).
    exists "", c, post. repeat split; auto. intros; simpl; lia.
  - destruct (Py.match_attrib_here key (String a line)) eqn:Hm.
    + intros [= <-].
      apply match_attrib_here_Some in Hm as (c & post & ? & ? & ?).
      exists "", c, post. repeat split; auto. intros; simpl; lia.
    + intros H. destruct (IH H) as (pre & c & post & Hl & Hc & Hg & Hmin).
      exists (String a pre), c, post. rewrite app_cons, <- Hl.
      repeat split; auto.
      intros [|a' pre'] c' post' Heq Hc'.
      * rewrite app_nil_l in Heq. rewrite Heq in Hm.
        rewrite (match_attrib_here_app key post' c' Hc') in Hm. discriminate.
      * rewrite app_cons in Heq. injection Heq as _ Heq.
        specialize (Hmin pre' c' post' Heq Hc'). simpl. lia.
Qed.

(** The leftmost match is taken, not a later one. *)
Example search_takes_leftmost :
  Py.search_attrib DESCR "descr: a descr: b" = Some "a descr: b".
Proof. reflexivity. Qed.

(** C3, as the code has it: the search for a key matches exactly the
    lines that hold, anywhere, the key directly followed by a colon and
    one whitespace character; the capture is what follows the leftmost
    such place, that and no other, and its coercion is stored under the
    key when the key is a recognized one. *)
Theorem search_attrib_unanchored (key line : string) :
  (is_Some (Py.search_attrib key line) <->
     exists pre c post, line = pre ++ key ++ ":" ++ String c post
                        /\ Py.isspace c = true)
  /\ (forall g,
        Py.search_attrib key line = Some g <->
        exists pre c post,
          line = pre ++ key ++ ":" ++ String c post
          /\ Py.isspace c = true /\ g = Py.until_newline post
          /\ (forall pre' c' post',
                line = pre' ++ key ++ ":" ++ String c' post' ->
                Py.isspace c' = true ->
                (String.length pre <= String.length pre')%nat))
  /\ (forall g tmp, key ∈ _geom_attribs ->
        Py.search_attrib key line = Some g ->
        parse_line tmp line !! key
        = Some (_datavalue (_datatypes !! key) g)).
Proof.
  split; [split | split].
  - intros [g H]. apply search_attrib_Some in H as (pre & c & post & ? & ? & _).
    exists pre, c, post. auto.
  - intros (pre & c & post & -> & Hc). now apply search_attrib_contains.
  - intros g. split; [apply search_attrib_leftmost |].
    intros (pre & c & post & Hl & Hc & -> & Hmin).
    destruct (search_attrib_contains key pre post c Hc) as [g' Hg'].
    rewrite <- Hl in Hg'. rewrite Hg'. f_equal.
    destruct (search_attrib_leftmost key line g' Hg')
      as (pre1 & c1 & post1 & Hl1 & Hc1 & -> & Hmin1).
    pose proof (Hmin pre1 c1 post1 Hl1 Hc1) as Hle.
    pose proof (Hmin1 pre c post Hl Hc) as Hge.
    assert (String.length pre1 = String.length pre) as Hlen by lia.
    rewrite Hl in Hl1.
    destruct (app_same_length pre1 pre _ _ Hlen (eq_sym Hl1)) as [_ Heq].
    apply (inj (String.append key)) in Heq.
    rewrite !app_cons, !app_nil_l in Heq.
    now injection Heq as _ ->.
  - intros g tmp Hk H.
    now rewrite (parse_line_lookup line key tmp Hk), H.
Qed.

Lemma search_attrib_unanchored_witness :
  parse_line ∅ "   xdescr: Virtual disk" !! DESCR
  = Some (_datavalue (_datatypes !! DESCR) "Virtual disk")
  /\ Py.search_attrib DESCR "descr: a descr: b" = Some "a descr: b".
Proof.
  split.
  - apply (proj2 (proj2 (search_attrib_unanchored DESCR
                           "   xdescr: Virtual disk")));
      [compute_done | reflexivity].
  - apply (proj1 (proj2 (search_attrib_unanchored DESCR "descr: a descr: b"))).
    exists "", " "%char, "a descr: b".
    split; [reflexivity |]. split; [reflexivity |]. split; [reflexivity |].
    intros pre' c' post' _ _. simpl. lia.
Defined.

(** *** Classification of a record *)

(** C7: a record whose device name does not start with [cd] is always
    entered in the disks mapping under its name, and the name is appended
    to the SSDs list exactly when the rotation rate was coerced to the
    integer 0; with any other value, or none, the SSDs list is left as it
    was. *)
Theorem geom_record_classified (device : string) (ret : geom_ret) (v : pyval) :
  parse_lines device !! GEOMNAME = Some v ->
  exists name, v = VStr name
    /\ (Py.startswith name "cd" = false ->
        exists ret',
          parse_geom_attribs device ret = Ok ret'
          /\ geom_disks ret'
             = <[name := delete GEOMNAME (parse_lines device)]> (geom_disks ret)
          /\ is_Some (geom_disks ret' !! name)
          /\ (parse_lines device !! ROTATIONRATE = Some (VInt 0) ->
              geom_SSDs ret' = (geom_SSDs ret ++ [name])%list)
          /\ (parse_lines device !! ROTATIONRATE <> Some (VInt 0) ->
              geom_SSDs ret' = geom_SSDs ret)).
Proof.
  intros Hv. destruct (geomname_is_text device v Hv) as [name ->].
  exists name. split; [reflexivity |]. intros Hcd.
  unfold parse_geom_attribs. rewrite Hv, Hcd.
  rewrite lookup_delete_ne by discriminate.
  destruct (parse_lines device !! ROTATIONRATE) as [[|z|s]|] eqn:Hrot;
    cbn [eq_zero].
  1,3,4: eexists; split; [reflexivity |]; cbn [geom_disks geom_SSDs];
         split; [reflexivity |]; split; [rewrite lookup_insert_eq; eauto |];
         split; [discriminate | reflexivity].
  destruct z as [|p|p]; (eexists; split; [reflexivity |]);
    cbn [geom_disks geom_SSDs];
    (split; [reflexivity |]; split; [rewrite lookup_insert_eq; eauto |]).
  - split; [reflexivity | congruence].
  - split; [discriminate | reflexivity].
  - split; [discriminate | reflexivity].
Qed.

Lemma geom_record_classified_witness :
  exists ret',
    parse_geom_attribs
      (Py.join Py.nl ["Geom name: ada0"; "   rotationrate: 0"])
      (GeomRet ∅ []) = Ok ret'
    /\ is_Some (geom_disks ret' !! "ada0")
    /\ geom_SSDs ret' = ["ada0"].
Proof.
  destruct (geom_record_classified
              (Py.join Py.nl ["Geom name: ada0"; "   rotationrate: 0"])
              (GeomRet ∅ []) (VStr "ada0"))
    as (name & Hname & H); [vm_compute; reflexivity |].
  injection Hname as <-.
  destruct H as (ret' & Hret & _ & Hin & Hssd & _); [reflexivity |].
  exists ret'. split; [exact Hret |]. split; [exact Hin |].
  apply Hssd. vm_compute. reflexivity.
Defined.

End FreeBSD.

(** ** The inventory *)

Section Inventory.

Lemma classified_elem (d name : string) (ret ret' : list_ret) :
  classified d ret ret' ->
  (name ∈ ret_disks ret' -> name ∈ ret_disks ret \/ name = d)
  /\ (name ∈ ret_SSDs ret' -> name ∈ ret_SSDs ret \/ name = d)
  /\ (name ∈ ret_disks ret' -> name ∈ ret_SSDs ret' ->
      name ∈ ret_disks ret \/ name ∈ ret_SSDs ret).
Proof.
  intros [-> | [-> | ->]]; cbn [ret_disks ret_SSDs];
    rewrite ?elem_of_app, ?list_elem_of_singleton; tauto.
Qed.

(** A scan over pairwise distinct devices, none of them listed yet,
    keeps the two lists disjoint. *)
Lemma scanned_disjoint (ds : list string) (ret ret' : list_ret) :
  scanned ds ret ret' -> NoDup ds ->
  (forall d, d ∈ ds -> (d ∉ ret_disks ret) /\ (d ∉ ret_SSDs ret)) ->
  disjoint_lists ret -> disjoint_lists ret'.
Proof.
  induction 1 as [ret | d ds ret ret1 ret2 Hc Hs IH]; intros Hnd Hfresh Hdis;
    [exact Hdis |].
  apply NoDup_cons in Hnd as [Hd Hnd].
  destruct (Hfresh d) as [Hd1 Hd2]; [now left |].
  apply IH; [exact Hnd | |].
  - intros d' Hd'. destruct (Hfresh d') as [H1 H2]; [now right |].
    assert (d' <> d) by (intros ->; contradiction).
    destruct (classified_elem d d' ret ret1 Hc) as (Ha & Hb & _).
    split; intros Hin; [apply Ha in Hin | apply Hb in Hin]; tauto.
  - intros name [H1 H2].
    destruct (classified_elem d name ret ret1 Hc) as (Ha & Hb & Hab).
    destruct (Hab H1 H2) as [Hin | Hin].
    + apply Hb in H2 as [H2 | ->]; [apply (Hdis name); auto | contradiction].
    + apply Ha in H1 as [H1 | ->]; [apply (Hdis name); auto | contradiction].
Qed.

Lemma linux_entry_classified (e : string * source) (ret ret' : list_ret) :
  linux_entry e ret = Ok ret' ->
  exists d, Py.split "/" e.1 !! 3%nat = Some d /\ classified d ret ret'.
Proof.
  destruct e as [entry src]. unfold linux_entry, path_device. cbn [fst].
  destruct src as [| |text]; [discriminate | |];
    destruct (Py.split "/" entry !! 3%nat) as [d|]; try discriminate.
  cbn. intros H. exists d. split; [reflexivity |]. unfold classified.
  destruct (String.eqb (read1 text) "0"); [injection H as <-; auto |].
  destruct (String.eqb (read1 text) "1"); injection H as <-; auto.
Qed.

Lemma linux_scanned (entries : list (string * source)) (ret ret' : list_ret) :
  for_each linux_entry entries ret = Ok ret' ->
  scanned (linux_devices entries) ret ret'.
Proof.
  revert ret; induction entries as [|e entries IH]; intros ret.
  - intros [= <-]. constructor.
  - cbn [for_each]. destruct (linux_entry e ret) as [ret1 | ex] eqn:He;
      [| discriminate].
    cbn. intros H.
    destruct (linux_entry_classified e ret ret1 He) as (d & Hd & Hc).
    unfold linux_devices. cbn [omap]. rewrite Hd.
    econstructor; [exact Hc | now apply IH].
Qed.

Lemma windows_scanned (lines : list string) (ret : list_ret) :
  scanned (physical_drive <$> windows_indices lines) ret
          (fold_left windows_line lines ret).
Proof.
  revert ret; induction lines as [|line lines IH]; intros ret; [constructor |].
  cbn [fold_left].
  assert (windows_indices (line :: lines)
          = match valid_row line with
            | Some p => p.1 :: windows_indices lines
            | None => windows_indices lines
            end) as ->
    by (unfold windows_indices; cbn; now destruct (valid_row line)).
  destruct (valid_row line) as [[i0 m]|] eqn:Hv.
  - rewrite fmap_cons. econstructor; [| apply IH].
    unfold classified, windows_line. rewrite Hv. cbn [fst].
    destruct (String.eqb m "3"); [auto |].
    destruct (String.eqb m "4"); auto.
  - rewrite (windows_line_invalid line ret Hv). apply IH.
Qed.

#[local] Instance physical_drive_inj : Inj (=) (=) physical_drive.
Proof. unfold physical_drive. apply _. Qed.

Lemma parse_geom_attribs_ssds (device : string) (ret ret' : geom_ret) :
  parse_geom_attribs device ret = Ok ret' ->
  ssds_in_disks ret -> ssds_in_disks ret'.
Proof.
  unfold parse_geom_attribs, ssds_in_disks.
  destruct (parse_lines device !! GEOMNAME) as [[| |name]|]; try discriminate.
  destruct (Py.startswith name "cd"); [intros [= <-]; auto |].
  destruct (eq_zero _); intros [= <-] Hinv n; cbn [geom_disks geom_SSDs];
    rewrite lookup_insert_is_Some'.
  - rewrite elem_of_app, list_elem_of_singleton. intros [H | ->]; auto.
  - auto.
Qed.

Lemma freebsd_geom_ssds (devices : list string) (ret ret' : geom_ret) :
  for_each parse_geom_attribs devices ret = Ok ret' ->
  ssds_in_disks ret -> ssds_in_disks ret'.
Proof.
  revert ret; induction devices as [|device devices IH]; intros ret.
  - intros [= <-]. auto.
  - cbn [for_each].
    destruct (parse_geom_attribs device ret) as [ret1 | ex] eqn:Hd;
      [| discriminate].
    cbn. intros H Hinv. apply (IH ret1 H).
    now apply (parse_geom_attribs_ssds device ret).
Qed.

(** C9 as stated fails on two branches: the FreeBSD mapping covers all
    disks, so a disk of rotation rate 0 is in [disks] and in [SSDs]; and
    a Windows table that lists one drive index under both media types
    puts the one identifier in both lists. *)
Lemma name_in_both_collections :
  (exists r, disks one_geom_ssd = Ok (Some (Geom r))
             /\ is_Some (geom_disks r !! "ada0") /\ geom_SSDs r = ["ada0"])
  /\ disks drive_listed_twice
     = Ok (Some (Lists (ListRet ["\\.\PhysicalDrive0"]
                                ["\\.\PhysicalDrive0"])))
  /\ ~ no_name_in_both one_geom_ssd
  /\ ~ no_name_in_both drive_listed_twice.
Proof.
  assert (exists r, disks one_geom_ssd = Ok (Some (Geom r))
                    /\ is_Some (geom_disks r !! "ada0")
                    /\ geom_SSDs r = ["ada0"]) as Hgeom.
  { destruct (disks one_geom_ssd) as [[[r|r]|]|e] eqn:H;
      try (vm_compute in H; discriminate).
    exists r. split; [reflexivity |].
    vm_compute in H. injection H as <-.
    split; [eexists; vm_compute; reflexivity | reflexivity]. }
  split; [exact Hgeom |]. split; [reflexivity |]. split.
  - destruct Hgeom as (r & Hr & Hin & Hssd).
    intros H. apply (H (Geom r) "ada0" Hr). cbn [disk_names ssd_names].
    split.
    + now apply elem_of_elements, elem_of_dom.
    + rewrite Hssd. now left.
  - intros H.
    apply (H (Lists (ListRet ["\\.\PhysicalDrive0"] ["\\.\PhysicalDrive0"]))
             "\\.\PhysicalDrive0" eq_refl).
    cbn [disk_names ssd_names ret_disks ret_SSDs]. split; now left.
Qed.

(** C9, as the code has it: on Linux, where the discovered paths name
    pairwise distinct devices, and on Windows, when no drive index
    occurs in two valid rows, no name is in both lists; on FreeBSD the
    mapping covers all disks and every name of the SSDs list is one of
    its keys. *)
Theorem names_across_collections (h : host) (inv : inventory) :
  disks h = Ok (Some inv) ->
  (is_freebsd h = true ->
     forall name, name ∈ ssd_names inv -> name ∈ disk_names inv)
  /\ (is_freebsd h = false -> is_linux h = true ->
      NoDup (linux_devices (rotational h)) ->
      forall name, ~ (name ∈ disk_names inv /\ name ∈ ssd_names inv))
  /\ (is_freebsd h = false -> is_linux h = false -> is_windows h = true ->
      NoDup (windows_indices (Py.splitlines (stdout (wmic h)))) ->
      forall name, ~ (name ∈ disk_names inv /\ name ∈ ssd_names inv)).
Proof.
  intros Hd. unfold disks in Hd.
  assert (disjoint_lists (ListRet [] [])) as Hempty
    by (intros name [H _]; now apply elem_of_nil in H).
  split; [| split].
  - intros Hf. rewrite Hf in Hd.
    destruct (_freebsd_geom (geom_disk_list h)) as [r | e] eqn:Hr;
      [| discriminate].
    injection Hd as <-. cbn [ssd_names disk_names].
    intros name Hin. apply elem_of_elements, elem_of_dom.
    revert name Hin. apply (freebsd_geom_ssds _ _ _ Hr).
    intros name H. now apply elem_of_nil in H.
  - intros Hf Hl Hnd. rewrite Hf, Hl in Hd.
    destruct (_linux_disks (rotational h)) as [r | e] eqn:Hr; [| discriminate].
    injection Hd as <-. cbn [ssd_names disk_names].
    apply (scanned_disjoint _ _ _ (linux_scanned _ _ _ Hr) Hnd); [| exact Hempty].
    intros d _. split; apply not_elem_of_nil.
  - intros Hf Hl Hw Hnd. rewrite Hf, Hl, Hw in Hd.
    injection Hd as <-. cbn [ssd_names disk_names].
    unfold _windows_disks. destruct (negb (retcode (wmic h) =? 0));
      [exact Hempty |].
    apply (scanned_disjoint _ _ _ (windows_scanned _ _)); [| | exact Hempty].
    + now apply (NoDup_fmap_2 physical_drive).
    + intros d _. split; apply not_elem_of_nil.
Qed.

Lemma names_across_collections_witness :
  "ada0" ∈ disk_names (Geom one_geom_ssd_ret).
Proof.
  refine (proj1 (names_across_collections one_geom_ssd
                   (Geom one_geom_ssd_ret) _) _ "ada0" _).
  - vm_compute. reflexivity.
  - reflexivity.
  - now left.
Defined.

End Inventory.

(** ** Whole runs of the FreeBSD branch *)

Section GeomRuns.

Lemma block_name_None (device : string) :
  block_name device = None -> parse_lines device !! GEOMNAME = None.
Proof.
  unfold block_name.
  destruct (parse_lines device !! GEOMNAME) as [v|] eqn:Hv; [| reflexivity].
  destruct (geomname_is_text device v Hv) as [name ->]. discriminate.
Qed.

Lemma block_name_Some (device name : string) :
  block_name device = Some name ->
  parse_lines device !! GEOMNAME = Some (VStr name).
Proof.
  unfold block_name.
  destruct (parse_lines device !! GEOMNAME) as [[| |s]|]; try discriminate.
  now intros [= ->].
Qed.

(** What one block does to the inventory. *)
Lemma parse_geom_attribs_named (device name : string) (ret : geom_ret) :
  block_name device = Some name ->
  parse_geom_attribs device ret
  = Ok (GeomRet (enter_block (geom_disks ret) device)
                (geom_SSDs ret ++ option_list (block_ssd device))).
Proof.
  intros Hn. unfold enter_block, block_ssd, block_disk. rewrite Hn.
  apply block_name_Some in Hn. unfold parse_geom_attribs. rewrite Hn.
  destruct ret as [disks SSDs]. cbn [geom_disks geom_SSDs].
  destruct (Py.startswith name "cd"); cbn [option_list].
  - now rewrite List.app_nil_r.
  - rewrite lookup_delete_ne by discriminate. unfold block_record.
    destruct (eq_zero (parse_lines device !! ROTATIONRATE)); cbn [option_list];
      [reflexivity | now rewrite List.app_nil_r].
Qed.

Lemma parse_geom_attribs_nameless (device : string) (ret : geom_ret) :
  block_name device = None -> parse_geom_attribs device ret = Raise KeyError.
Proof.
  intros Hn. apply block_name_None in Hn.
  unfold parse_geom_attribs. now rewrite Hn.
Qed.

(** The loop over the blocks, from any inventory. *)
Lemma geom_loop_named (devices : list string) (ret : geom_ret) :
  Forall (fun b => is_Some (block_name b)) devices ->
  for_each parse_geom_attribs devices ret
  = Ok (GeomRet (fold_left enter_block devices (geom_disks ret))
                (geom_SSDs ret ++ omap block_ssd devices)).
Proof.
  intros Hall. revert ret.
  induction Hall as [|b devices [name Hb] Hall IH]; intros ret.
  - destruct ret. cbn. now rewrite List.app_nil_r.
  - cbn [for_each]. rewrite (parse_geom_attribs_named b name ret Hb). cbn.
    rewrite IH. cbn [geom_disks geom_SSDs]. f_equal. f_equal.
    rewrite <- List.app_assoc. f_equal.
    now destruct (block_ssd b).
Qed.

Lemma geom_loop_nameless (devices : list string) (ret : geom_ret) :
  Exists (fun b => block_name b = None) devices ->
  for_each parse_geom_attribs devices ret = Raise KeyError.
Proof.
  intros Hex. revert ret.
  induction devices as [|b devices IH]; intros ret; [inversion Hex |].
  cbn [for_each]. destruct (block_name b) as [name|] eqn:Hb.
  - rewrite (parse_geom_attribs_named b name ret Hb). cbn.
    apply IH. apply Exists_cons in Hex as [Hex | Hex]; [congruence | exact Hex].
  - now rewrite (parse_geom_attribs_nameless b ret Hb).
Qed.

Lemma named_or_nameless (devices : list string) :
  Forall (fun b => is_Some (block_name b)) devices
  \/ Exists (fun b => block_name b = None) devices.
Proof.
  induction devices as [|b devices [IH | IH]].
  - left. constructor.
  - destruct (block_name b) as [name|] eqn:Hb.
    + left. constructor; [rewrite Hb; eauto | exact IH].
    + right. now left.
  - right. now right.
Qed.

Lemma last_match_is_Some (k : string) (lines : list string) :
  is_Some (last_match k lines) <->
  Exists (fun l => is_Some (Py.search_attrib k l)) lines.
Proof.
  unfold last_match.
  assert (forall acc,
            is_Some (fold_left (fun acc line =>
                                  match Py.search_attrib k line with
                                  | Some g => Some g
                                  | None => acc
                                  end) lines acc) <->
            is_Some acc
            \/ Exists (fun l => is_Some (Py.search_attrib k l)) lines) as H.
  { induction lines as [|l lines IH]; intros acc; cbn [fold_left].
    - rewrite Exists_nil. tauto.
    - rewrite IH, Exists_cons.
      destruct (Py.search_attrib k l) as [g|]; split.
      + intros _. right. left. eauto.
      + intros _. left. eauto.
      + intros [H | H]; [now left | right; now right].
      + intros [H | [[? H] | H]]; [now left | discriminate | now right]. }
  rewrite H. split; [intros [[? Hn] | Hex]; [discriminate | exact Hex] | auto].
Qed.

(** A block has a name exactly when one of its lines matches the key. *)
Lemma block_name_lines (b : string) :
  is_Some (block_name b) <->
  Exists (fun l => is_Some (Py.search_attrib GEOMNAME l)) (Py.split Py.nl b).
Proof.
  rewrite <- last_match_is_Some. unfold block_name.
  rewrite (parse_lines_lookup b GEOMNAME geomname_in).
  destruct (last_match GEOMNAME (Py.split Py.nl b)) as [g|]; cbn.
  - split; eauto.
  - split; intros [? H]; discriminate.
Qed.

Lemma freebsd_geom_outcome_core (devices : string) :
  ((exists r, _freebsd_geom devices = Ok r) <->
     Forall (fun b =>
               Exists (fun l => is_Some (Py.search_attrib GEOMNAME l))
                      (Py.split Py.nl b))
            (Py.split blank_line devices))
  /\ (forall e, _freebsd_geom devices = Raise e -> e = KeyError).
Proof.
  assert (Forall (fun b =>
               Exists (fun l => is_Some (Py.search_attrib GEOMNAME l))
                      (Py.split Py.nl b))
            (Py.split blank_line devices)
          <-> Forall (fun b => is_Some (block_name b))
                     (Py.split blank_line devices)) as ->.
  { rewrite !Forall_forall. split; intros H b Hb; apply block_name_lines;
      now apply H. }
  unfold _freebsd_geom.
  destruct (named_or_nameless (Py.split blank_line devices)) as [H | H].
  - rewrite (geom_loop_named _ _ H). split; [| discriminate].
    split; [auto | eauto].
  - rewrite (geom_loop_nameless _ _ H). split; [| now intros e [= <-]].
    split; [intros [r Hr]; discriminate |].
    intros Hall. exfalso.
    apply Exists_exists in H as (b & Hb & Hn).
    rewrite Forall_forall in Hall. destruct (Hall b Hb) as [n Hn'].
    congruence.
Qed.

(** X1: [_freebsd_geom] returns exactly when every block of the output
    has a line that matches the device-name key; otherwise it raises
    [KeyError], and it raises nothing else. *)
Theorem freebsd_geom_outcome (devices : string) :
  ((exists r, _freebsd_geom devices = Ok r) <->
     Forall (fun b =>
               Exists (fun l => is_Some (Py.search_attrib GEOMNAME l))
                      (Py.split Py.nl b))
            (Py.split blank_line devices))
  /\ (forall e, _freebsd_geom devices = Raise e -> e = KeyError).
Proof. exact (freebsd_geom_outcome_core devices). Qed.

Lemma freebsd_geom_inventory_core (devices : string) (r : geom_ret) :
  _freebsd_geom devices = Ok r ->
  geom_SSDs r = omap block_ssd (Py.split blank_line devices)
  /\ geom_disks r = fold_left enter_block (Py.split blank_line devices) ∅.
Proof.
  unfold _freebsd_geom.
  destruct (named_or_nameless (Py.split blank_line devices)) as [H | H].
  - rewrite (geom_loop_named _ _ H). intros [= <-]. auto.
  - rewrite (geom_loop_nameless _ _ H). discriminate.
Qed.

(** X2: when [_freebsd_geom] returns, the SSDs list holds, in the order
    of the blocks and once per block, the names of the non-optical blocks
    whose rotation rate is 0, and the mapping is the blocks' records
    entered one after the other under their names. *)
Theorem freebsd_geom_inventory (devices : string) (r : geom_ret) :
  _freebsd_geom devices = Ok r ->
  geom_SSDs r = omap block_ssd (Py.split blank_line devices)
  /\ geom_disks r = fold_left enter_block (Py.split blank_line devices) ∅.
Proof. exact (freebsd_geom_inventory_core devices r). Qed.

Lemma freebsd_geom_inventory_witness :
  geom_SSDs one_geom_ssd_ret
  = omap block_ssd (Py.split blank_line (geom_disk_list one_geom_ssd)).
Proof.
  refine (proj1 (freebsd_geom_inventory (geom_disk_list one_geom_ssd)
                   one_geom_ssd_ret _)).
  vm_compute. reflexivity.
Defined.

(** *** The records of the mapping *)

Lemma enter_blocks_other (l : list string) (name : string)
  (m : gmap string (gmap string pyval)) :
  Forall (fun b => block_disk b <> Some name) l ->
  fold_left enter_block l m !! name = m !! name.
Proof.
  intros Hall. revert m.
  induction Hall as [|b l Hb Hall IH]; intros m; [reflexivity |].
  cbn [fold_left]. rewrite IH. unfold enter_block.
  destruct (block_disk b) as [n|]; [| reflexivity].
  apply lookup_insert_ne. congruence.
Qed.

Lemma enter_blocks_last (l1 l2 : list string) (b name : string)
  (m : gmap string (gmap string pyval)) :
  block_disk b = Some name ->
  Forall (fun b' => block_disk b' <> Some name) l2 ->
  fold_left enter_block (l1 ++ b :: l2) m !! name = Some (block_record b).
Proof.
  intros Hb Hall. rewrite fold_left_app. cbn [fold_left].
  rewrite (enter_blocks_other l2 name _ Hall).
  unfold enter_block at 1. rewrite Hb. apply lookup_insert_eq.
Qed.

(** The last block of a list that is entered under [name], if any. *)
Lemma last_block_of_name (l : list string) (name : string) :
  Forall (fun b => block_disk b <> Some name) l
  \/ exists l1 b l2, l = (l1 ++ b :: l2)%list
                     /\ block_disk b = Some name
                     /\ Forall (fun b' => block_disk b' <> Some name) l2.
Proof.
  induction l as [|a l [IH | (l1 & b & l2 & -> & Hb & Hall)]].
  - left. constructor.
  - destruct (decide (block_disk a = Some name)) as [Ha | Ha].
    + right. exists [], a, l. auto.
    + left. now constructor.
  - right. exists (a :: l1), b, l2. auto.
Qed.

Lemma freebsd_geom_records_core (devices : string) (r : geom_ret) :
  _freebsd_geom devices = Ok r ->
  (forall name,
     is_Some (geom_disks r !! name) <->
     exists b, b ∈ Py.split blank_line devices /\ block_disk b = Some name)
  /\ (forall name rec,
        geom_disks r !! name = Some rec ->
        exists b, b ∈ Py.split blank_line devices
                  /\ block_disk b = Some name /\ rec = block_record b)
  /\ (forall l1 b l2 name,
        Py.split blank_line devices = (l1 ++ b :: l2)%list ->
        block_disk b = Some name ->
        Forall (fun b' => block_disk b' <> Some name) l2 ->
        geom_disks r !! name = Some (block_record b)).
Proof.
  intros Hr. destruct (freebsd_geom_inventory_core devices r Hr) as [_ Hd].
  assert (forall name rec,
            geom_disks r !! name = Some rec ->
            exists b, b ∈ Py.split blank_line devices
                      /\ block_disk b = Some name /\ rec = block_record b)
    as Hprov.
  { intros name rec Hrec. rewrite Hd in Hrec.
    destruct (last_block_of_name (Py.split blank_line devices) name)
      as [Hall | (l1 & b & l2 & Heq & Hb & Hall)].
    - rewrite (enter_blocks_other _ name ∅ Hall), lookup_empty in Hrec.
      discriminate.
    - rewrite Heq in Hrec |- *.
      rewrite (enter_blocks_last l1 l2 b name ∅ Hb Hall) in Hrec.
      injection Hrec as <-. exists b. split; [| auto].
      apply elem_of_app. right. now left. }
  split; [| split; [exact Hprov |]].
  - intros name. split.
    + intros [rec Hrec]. destruct (Hprov name rec Hrec) as (b & ? & ? & _).
      eauto.
    + intros (b & Hin & Hb). rewrite Hd.
      destruct (last_block_of_name (Py.split blank_line devices) name)
        as [Hall | (l1 & b' & l2 & Heq & Hb' & Hall)].
      * rewrite Forall_forall in Hall. now destruct (Hall b Hin).
      * rewrite Heq, (enter_blocks_last l1 l2 b' name ∅ Hb' Hall). eauto.
  - intros l1 b l2 name Heq Hb Hall.
    now rewrite Hd, Heq, (enter_blocks_last l1 l2 b name ∅ Hb Hall).
Qed.

(** X3: when [_freebsd_geom] returns, a name is a key of the mapping
    exactly when some non-optical block bears it, and the record kept
    under the name is that of the last such block: a later block of the
    same name replaces the earlier record. *)
Theorem freebsd_geom_records (devices : string) (r : geom_ret) :
  _freebsd_geom devices = Ok r ->
  (forall name,
     is_Some (geom_disks r !! name) <->
     exists b, b ∈ Py.split blank_line devices /\ block_disk b = Some name)
  /\ (forall name rec,
        geom_disks r !! name = Some rec ->
        exists b, b ∈ Py.split blank_line devices
                  /\ block_disk b = Some name /\ rec = block_record b)
  /\ (forall l1 b l2 name,
        Py.split blank_line devices = (l1 ++ b :: l2)%list ->
        block_disk b = Some name ->
        Forall (fun b' => block_disk b' <> Some name) l2 ->
        geom_disks r !! name = Some (block_record b)).
Proof. exact (freebsd_geom_records_core devices r). Qed.

Lemma freebsd_geom_records_witness :
  exists r, _freebsd_geom (geom_disk_list geom_renamed) = Ok r
            /\ geom_disks r !! "ada0"
               = Some (<[DESCR := VStr "new"]>
                       (<["device_model" := VStr "new"]>
                       (<[ROTATIONRATE := VInt 7200]>
                       (<["media_RPM" := VInt 7200]> ∅))))
            /\ geom_SSDs r = ["ada0"].
Proof.
  destruct (_freebsd_geom (geom_disk_list geom_renamed)) as [r | e] eqn:Hr;
    [| vm_compute in Hr; discriminate].
  exists r. split; [reflexivity |].
  destruct (freebsd_geom_records _ r Hr) as (_ & _ & Hlast).
  split.
  - rewrite (Hlast
      [Py.join Py.nl ["Geom name: ada0"; "   descr: old"; "   rotationrate: 0"];
       Py.join Py.nl ["Geom name: cd0"; "   rotationrate: 0"]]
      (Py.join Py.nl ["Geom name: ada0"; "   descr: new";
                      "   rotationrate: 7200"])
      [] "ada0"); [| vm_compute; reflexivity | vm_compute; reflexivity
                   | constructor].
    vm_compute. reflexivity.
  - vm_compute in Hr. now injection Hr as <-.
Defined.

Lemma block_disk_not_optical (b name : string) :
  block_disk b = Some name -> Py.startswith name "cd" = false.
Proof.
  unfold block_disk. destruct (block_name b) as [n|]; [| discriminate].
  destruct (Py.startswith n "cd") eqn:Hcd; [discriminate |].
  now intros [= <-].
Qed.

Lemma block_ssd_disk (b name : string) :
  block_ssd b = Some name ->
  block_disk b = Some name
  /\ parse_lines b !! ROTATIONRATE = Some (VInt 0).
Proof.
  unfold block_ssd. destruct (block_disk b) as [n|]; [| discriminate].
  destruct (parse_lines b !! ROTATIONRATE) as [[|[| |]|]|]; cbn; try discriminate.
  now intros [= <-].
Qed.

(** X4: an optical drive is in neither collection: when [_freebsd_geom]
    returns, no key of the mapping and no name of the SSDs list starts
    with [cd], whatever else its block holds. *)
Theorem freebsd_geom_no_optical (devices : string) (r : geom_ret) (name : string) :
  _freebsd_geom devices = Ok r ->
  is_Some (geom_disks r !! name) \/ name ∈ geom_SSDs r ->
  Py.startswith name "cd" = false.
Proof.
  intros Hr [Hin | Hin].
  - destruct (freebsd_geom_records_core devices r Hr) as (Hkeys & _ & _).
    apply Hkeys in Hin as (b & _ & Hb). now apply (block_disk_not_optical b).
  - destruct (freebsd_geom_inventory_core devices r Hr) as [Hssd _].
    rewrite Hssd in Hin. apply list_elem_of_omap in Hin as (b & _ & Hb).
    apply block_ssd_disk in Hb as [Hb _].
    now apply (block_disk_not_optical b).
Qed.

Lemma freebsd_geom_no_optical_witness : Py.startswith "ada0" "cd" = false.
Proof.
  apply (freebsd_geom_no_optical (geom_disk_list one_geom_ssd)
           one_geom_ssd_ret "ada0").
  - vm_compute. reflexivity.
  - right. now left.
Defined.

End GeomRuns.

(** ** The records of the FreeBSD branch *)

Section GeomRecords.

Lemma alias_key_in (attrib alias : string) :
  _aliases !! attrib = Some alias -> attrib ∈ _geom_attribs.
Proof.
  unfold _aliases. rewrite !lookup_insert_Some, lookup_empty.
  intros H.
  repeat (destruct H as [[<- _] | [_ H]]; [compute_done |]).
  discriminate.
Qed.

Lemma aliases_inj (a b alias : string) :
  _aliases !! a = Some alias -> _aliases !! b = Some alias -> a = b.
Proof.
  unfold _aliases. rewrite !lookup_insert_Some, lookup_empty.
  intros Ha Hb.
  repeat (destruct Ha as [[<- <-] | [_ Ha]];
          [repeat (destruct Hb as [[<- Hb] | [_ Hb]];
                   [first [reflexivity | discriminate] |]);
           discriminate |]).
  discriminate.
Qed.

(** One step of the inner loop keeps a key and its alias equal. *)
Lemma parse_attrib_alias (line attrib alias a : string)
  (tmp : gmap string pyval) :
  _aliases !! attrib = Some alias -> a ∈ _geom_attribs ->
  tmp !! alias = tmp !! attrib ->
  parse_attrib line tmp a !! alias = parse_attrib line tmp a !! attrib.
Proof.
  intros Hal Ha Heq.
  destruct (decide (a = attrib)) as [-> | Hne].
  - rewrite parse_attrib_lookup_same. unfold parse_attrib. rewrite Hal.
    destruct (Py.search_attrib attrib line); [apply lookup_insert_eq | exact Heq].
  - rewrite !parse_attrib_lookup_other; [exact Heq | | | |].
    + congruence.
    + intros H. apply alias_not_attrib in H.
      now apply H, (alias_key_in attrib alias).
    + intros ->. now apply (alias_not_attrib attrib a Hal).
    + intros H. apply Hne. exact (aliases_inj a attrib alias H Hal).
Qed.

Lemma parse_lines_alias (device attrib alias : string) :
  _aliases !! attrib = Some alias ->
  parse_lines device !! alias = parse_lines device !! attrib.
Proof.
  intros Hal. unfold parse_lines.
  generalize (Py.split Py.nl device) as lines.
  assert ((∅ : gmap string pyval) !! alias = (∅ : gmap string pyval) !! attrib)
    as H0 by now rewrite !lookup_empty.
  revert H0. generalize (∅ : gmap string pyval) as tmp.
  intros tmp H0 lines. revert tmp H0.
  induction lines as [|line lines IH]; intros tmp H0; [exact H0 |].
  cbn [fold_left]. apply IH. unfold parse_line.
  assert (Forall (fun a => a ∈ _geom_attribs) _geom_attribs) as Hall
    by (apply Forall_forall; auto).
  revert tmp H0. induction Hall as [|a l Ha Hall IHl]; intros tmp H0;
    [exact H0 |].
  cbn [fold_left]. apply IHl. now apply parse_attrib_alias.
Qed.

Lemma parse_attrib_keys (line a k : string) (tmp : gmap string pyval) :
  a ∈ _geom_attribs ->
  (is_Some (tmp !! k) -> known_key k) ->
  is_Some (parse_attrib line tmp a !! k) -> known_key k.
Proof.
  intros Ha Hk. unfold parse_attrib.
  destruct (Py.search_attrib a line) as [g|]; [| exact Hk].
  destruct (_aliases !! a) as [alias|] eqn:Hal.
  - rewrite !lookup_insert_is_Some. intros [<- | [_ [<- | [_ H]]]].
    + right. eauto.
    + now left.
    + auto.
  - rewrite lookup_insert_is_Some. intros [<- | [_ H]]; [now left | auto].
Qed.

Lemma parse_lines_keys (device k : string) :
  is_Some (parse_lines device !! k) -> known_key k.
Proof.
  unfold parse_lines. generalize (Py.split Py.nl device) as lines.
  assert (is_Some ((∅ : gmap string pyval) !! k) -> known_key k) as H0
    by (rewrite lookup_empty; intros [? ?]; discriminate).
  revert H0. generalize (∅ : gmap string pyval) as tmp.
  intros tmp H0 lines. revert tmp H0.
  induction lines as [|line lines IH]; intros tmp H0; [exact H0 |].
  cbn [fold_left]. apply IH. unfold parse_line.
  assert (Forall (fun a => a ∈ _geom_attribs) _geom_attribs) as Hall
    by (apply Forall_forall; auto).
  revert tmp H0. induction Hall as [|a l Ha Hall IHl]; intros tmp H0;
    [exact H0 |].
  cbn [fold_left]. apply IHl. now apply parse_attrib_keys.
Qed.

Lemma geom_alias_consistent_core (devices : string) (r : geom_ret)
  (name attrib alias : string) (rec : gmap string pyval) :
  _freebsd_geom devices = Ok r ->
  geom_disks r !! name = Some rec ->
  _aliases !! attrib = Some alias ->
  rec !! alias = rec !! attrib.
Proof.
  intros Hr Hrec Hal.
  destruct (freebsd_geom_records_core devices r Hr) as (_ & Hprov & _).
  destruct (Hprov name rec Hrec) as (b & _ & _ & ->).
  unfold block_record.
  assert (alias <> GEOMNAME) as H1.
  { intros ->. now apply (alias_not_attrib attrib GEOMNAME Hal), geomname_in. }
  assert (attrib <> GEOMNAME) as H2 by (intros ->; discriminate).
  rewrite !lookup_delete_ne by congruence.
  now apply parse_lines_alias.
Qed.

(** X5: in every record of the returned mapping, a key that has an
    alias and the alias hold the same value, and one is present exactly
    when the other is. *)
Theorem geom_alias_consistent (devices : string) (r : geom_ret)
  (name attrib alias : string) (rec : gmap string pyval) :
  _freebsd_geom devices = Ok r ->
  geom_disks r !! name = Some rec ->
  _aliases !! attrib = Some alias ->
  rec !! alias = rec !! attrib.
Proof. exact (geom_alias_consistent_core devices r name attrib alias rec). Qed.

Lemma geom_alias_consistent_witness :
  one_geom_ssd_record !! "media_RPM" = one_geom_ssd_record !! ROTATIONRATE.
Proof.
  apply (geom_alias_consistent (geom_disk_list one_geom_ssd) one_geom_ssd_ret
           "ada0" ROTATIONRATE "media_RPM" one_geom_ssd_record);
    [vm_compute; reflexivity | vm_compute; reflexivity | reflexivity].
Defined.

(** X6: a record of the returned mapping never holds the key
    [Geom name], which became the key of the record, and holds nothing
    but recognized keys and their aliases. *)
Theorem geom_record_keys (devices : string) (r : geom_ret)
  (name : string) (rec : gmap string pyval) :
  _freebsd_geom devices = Ok r ->
  geom_disks r !! name = Some rec ->
  rec !! GEOMNAME = None
  /\ (forall k, is_Some (rec !! k) -> known_key k).
Proof.
  intros Hr Hrec.
  destruct (freebsd_geom_records_core devices r Hr) as (_ & Hprov & _).
  destruct (Hprov name rec Hrec) as (b & _ & _ & ->).
  unfold block_record. split; [apply lookup_delete_eq |].
  intros k. rewrite lookup_delete_is_Some. intros [_ Hk].
  now apply (parse_lines_keys b).
Qed.

Lemma geom_record_keys_witness : one_geom_ssd_record !! GEOMNAME = None.
Proof.
  refine (proj1 (geom_record_keys (geom_disk_list one_geom_ssd)
                   one_geom_ssd_ret "ada0" one_geom_ssd_record _ _));
    vm_compute; reflexivity.
Defined.

(** X7: in every record of the returned mapping the keys coerced with
    ['try_int'], and the alias of the rotation rate, hold an integer or
    [None], never text; the model, the serial and the two unit
    identifiers hold text. *)
Theorem geom_record_types (devices : string) (r : geom_ret)
  (name k : string) (rec : gmap string pyval) (v : pyval) :
  _freebsd_geom devices = Ok r ->
  geom_disks r !! name = Some rec ->
  rec !! k = Some v ->
  (k ∈ int_keys \/ k = "media_RPM" -> int_or_none v)
  /\ (k ∈ text_keys -> exists s, v = VStr s).
Proof.
  intros Hr Hrec Hv.
  assert (forall k', k' ∈ int_keys -> rec !! k' = Some v -> int_or_none v)
    as Hint.
  { intros k' Hk' Hv'.
    destruct (freebsd_geom_records_core devices r Hr) as (_ & Hprov & _).
    destruct (Hprov name rec Hrec) as (b & _ & _ & ->).
    unfold block_record in Hv'.
    assert (k' ∈ _geom_attribs /\ k' <> GEOMNAME
            /\ _datatypes !! k' = Some (DStr "try_int")) as (Hin & Hne & Hdt).
    { unfold int_keys in Hk'.
      repeat (apply elem_of_cons in Hk' as [-> | Hk'];
              [split; [compute_done | split; [discriminate | reflexivity]] |]).
      now apply elem_of_nil in Hk'. }
    rewrite lookup_delete_ne in Hv' by congruence.
    rewrite (parse_lines_lookup b k' Hin), Hdt in Hv'.
    destruct (last_match k' _) as [g|]; [| discriminate].
    injection Hv' as <-. cbn. unfold try_int, int_or_none.
    destruct (Py.int g); eauto. }
  split.
  - intros [Hk | ->]; [now apply (Hint k) |].
    apply (Hint ROTATIONRATE); [compute_done |].
    now rewrite <- (geom_alias_consistent_core devices r name ROTATIONRATE
                      "media_RPM" rec Hr Hrec eq_refl).
  - intros Hk.
    destruct (freebsd_geom_records_core devices r Hr) as (_ & Hprov & _).
    destruct (Hprov name rec Hrec) as (b & _ & _ & ->).
    unfold block_record in Hv.
    assert (k ∈ _geom_attribs /\ k <> GEOMNAME /\ _datatypes !! k = None)
      as (Hin & Hne & Hdt).
    { unfold text_keys in Hk.
      repeat (apply elem_of_cons in Hk as [-> | Hk];
              [split; [compute_done | split; [discriminate | reflexivity]] |]).
      now apply elem_of_nil in Hk. }
    rewrite lookup_delete_ne in Hv by congruence.
    rewrite (parse_lines_lookup b k Hin), Hdt in Hv.
    destruct (last_match k _) as [g|]; [| discriminate].
    injection Hv as <-. cbn. eauto.
Qed.

Lemma geom_record_types_witness : int_or_none (VInt 0).
Proof.
  refine (proj1 (geom_record_types (geom_disk_list one_geom_ssd)
                   one_geom_ssd_ret "ada0" "media_RPM" one_geom_ssd_record
                   (VInt 0) _ _ _) _);
    [vm_compute; reflexivity .. | now right].
Defined.

Lemma last_match_none (k : string) (lines : list string) (acc : option string) :
  Forall (fun l => Py.search_attrib k l = None) lines ->
  fold_left (fun acc line =>
               match Py.search_attrib k line with
               | Some g => Some g
               | None => acc
               end) lines acc = acc.
Proof.
  intros Hall. revert acc.
  induction Hall as [|l lines Hl Hall IH]; intros acc; [reflexivity |].
  cbn [fold_left]. now rewrite Hl, IH.
Qed.

Lemma last_match_last (k g line : string) (l1 l2 : list string) :
  Py.search_attrib k line = Some g ->
  Forall (fun l => Py.search_attrib k l = None) l2 ->
  last_match k (l1 ++ line :: l2) = Some g.
Proof.
  intros Hg Hall. unfold last_match. rewrite fold_left_app. cbn [fold_left].
  now rewrite Hg, (last_match_none k l2 _ Hall).
Qed.

Lemma parse_lines_last_line_core (device k : string) :
  k ∈ _geom_attribs ->
  (forall l1 line l2 g,
     Py.split Py.nl device = (l1 ++ line :: l2)%list ->
     Py.search_attrib k line = Some g ->
     Forall (fun l => Py.search_attrib k l = None) l2 ->
     parse_lines device !! k = Some (_datavalue (_datatypes !! k) g))
  /\ (Forall (fun l => Py.search_attrib k l = None) (Py.split Py.nl device) ->
      parse_lines device !! k = None).
Proof.
  intros Hk. rewrite (parse_lines_lookup device k Hk). split.
  - intros l1 line l2 g -> Hg Hall.
    now rewrite (last_match_last k g line l1 l2 Hg Hall).
  - intros Hall. unfold last_match.
    now rewrite (last_match_none k _ None Hall).
Qed.

(** X8: within a block the last line that matches a recognized key
    decides: the key holds the coercion of what that line captures,
    whatever earlier lines held; the key is absent when no line
    matches. *)
Theorem parse_lines_last_line (device k : string) :
  k ∈ _geom_attribs ->
  (forall l1 line l2 g,
     Py.split Py.nl device = (l1 ++ line :: l2)%list ->
     Py.search_attrib k line = Some g ->
     Forall (fun l => Py.search_attrib k l = None) l2 ->
     parse_lines device !! k = Some (_datavalue (_datatypes !! k) g))
  /\ (Forall (fun l => Py.search_attrib k l = None) (Py.split Py.nl device) ->
      parse_lines device !! k = None).
Proof. exact (parse_lines_last_line_core device k). Qed.

Lemma parse_lines_last_line_witness :
  parse_lines (Py.join Py.nl ["Geom name: ada0"; "   Sectorsize: 512";
                              "   Sectorsize: 4096"; "   Mode: r2w2e3"])
    !! SECTORSIZE
  = Some (_datavalue (_datatypes !! SECTORSIZE) "4096").
Proof.
  refine (proj1 (parse_lines_last_line _ SECTORSIZE _)
            ["Geom name: ada0"; "   Sectorsize: 512"] "   Sectorsize: 4096"
            ["   Mode: r2w2e3"] "4096" _ _ _).
  - compute_done.
  - vm_compute. reflexivity.
  - reflexivity.
  - repeat constructor.
Defined.

(** X9: a named, non-optical block is added to the SSDs list exactly when
    the text captured by its last rotation-rate line reads, as a Python
    integer, 0; with no such line it is not added. *)
Theorem block_ssd_by_text (device name : string) :
  block_disk device = Some name ->
  (forall l1 line l2 g,
     Py.split Py.nl device = (l1 ++ line :: l2)%list ->
     Py.search_attrib ROTATIONRATE line = Some g ->
     Forall (fun l => Py.search_attrib ROTATIONRATE l = None) l2 ->
     (block_ssd device = Some name <-> Py.int g = Some 0))
  /\ (Forall (fun l => Py.search_attrib ROTATIONRATE l = None)
             (Py.split Py.nl device) ->
      block_ssd device = None).
Proof.
  intros Hd. unfold block_ssd. rewrite Hd.
  destruct (parse_lines_last_line_core device ROTATIONRATE rotationrate_in)
    as [Hlast Hnone].
  split.
  - intros l1 line l2 g Heq Hg Hall.
    rewrite (Hlast l1 line l2 g Heq Hg Hall).
    change (_datavalue (_datatypes !! ROTATIONRATE) g) with (try_int g).
    unfold try_int. destruct (Py.int g) as [[|p|p]|]; cbn;
      split; intros H; first [reflexivity | discriminate].
  - intros Hall. now rewrite (Hnone Hall).
Qed.

Lemma block_ssd_by_text_witness :
  block_ssd (Py.join Py.nl ["Geom name: ada0"; "   rotationrate: 0"])
  = Some "ada0".
Proof.
  refine (proj2 (proj1 (block_ssd_by_text _ "ada0" _)
                   ["Geom name: ada0"] "   rotationrate: 0" [] "0" _ _ _) _).
  - vm_compute. reflexivity.
  - vm_compute. reflexivity.
  - reflexivity.
  - constructor.
  - reflexivity.
Defined.

End GeomRecords.

(** ** Whole runs of the Linux and Windows branches *)

Section ListRuns.

Lemma omap_cons_option_list {A B : Type} (f : A -> option B) (a : A)
  (l : list A) :
  omap f (a :: l) = (option_list (f a) ++ omap f l)%list.
Proof. cbn. now destruct (f a). Qed.

Lemma linux_entry_lists (e : string * source) (ret : list_ret) :
  failing e.2 = false -> is_Some (Py.split "/" e.1 !! 3%nat) ->
  linux_entry e ret
  = Ok (ListRet (ret_disks ret ++ option_list (linux_hdd e))
                (ret_SSDs ret ++ option_list (linux_ssd e))).
Proof.
  destruct e as [entry src], ret as [ds ss]. cbn [fst snd].
  intros Hf [d Hd]. destruct src as [| |text]; try discriminate.
  unfold linux_entry, path_device, linux_hdd, linux_ssd. cbn [fst snd].
  rewrite Hd. cbn [mbind result_bind ret_disks ret_SSDs].
  destruct (String.eqb (read1 text) "0") eqn:H0.
  - apply String.eqb_eq in H0. rewrite H0. cbn.
    now rewrite List.app_nil_r.
  - destruct (String.eqb (read1 text) "1"); cbn;
      now rewrite ?List.app_nil_r.
Qed.

Lemma linux_loop_lists (entries : list (string * source)) (ret : list_ret) :
  Forall (fun e => failing e.2 = false
                   /\ is_Some (Py.split "/" e.1 !! 3%nat)) entries ->
  for_each linux_entry entries ret
  = Ok (ListRet (ret_disks ret ++ omap linux_hdd entries)
                (ret_SSDs ret ++ omap linux_ssd entries)).
Proof.
  intros Hall. revert ret.
  induction Hall as [|e entries [Hf Hd] Hall IH]; intros ret.
  - destruct ret. cbn. now rewrite !List.app_nil_r.
  - cbn [for_each]. rewrite (linux_entry_lists e ret Hf Hd).
    cbn [mbind result_bind]. rewrite IH. cbn [ret_disks ret_SSDs].
    now rewrite !omap_cons_option_list, !List.app_assoc.
Qed.

(** X10: when every discovered flag source opens and reads,
    [_linux_disks] returns the devices whose flag is ['1'] as the disks
    list and those whose flag is ['0'] as the SSDs list, each in the
    order of discovery and once per source; the others are in neither. *)
Theorem linux_disks_lists (entries : list (string * source)) :
  Forall (fun e => failing e.2 = false
                   /\ is_Some (Py.split "/" e.1 !! 3%nat)) entries ->
  _linux_disks entries
  = Ok (ListRet (omap linux_hdd entries) (omap linux_ssd entries)).
Proof. intros Hall. unfold _linux_disks. now rewrite linux_loop_lists. Qed.

Lemma linux_disks_lists_witness :
  _linux_disks (rotational linux_example) = Ok (ListRet ["sda"] ["sdb"]).
Proof.
  apply (linux_disks_lists (rotational linux_example)).
  repeat constructor; eexists; reflexivity.
Defined.

Lemma linux_entry_raises (e : string * source) (ret : list_ret) (ex : exn) :
  linux_entry e ret = Raise ex -> ex = IOError \/ ex = IndexError.
Proof.
  destruct e as [entry src]. unfold linux_entry, path_device.
  destruct src as [| |text]; [intros [= <-]; auto | |];
    destruct (Py.split "/" entry !! 3%nat); cbn;
    try (intros [= <-]; auto).
  destruct (String.eqb (read1 text) "0"); [discriminate |].
  destruct (String.eqb (read1 text) "1"); discriminate.
Qed.

Lemma linux_loop_raises (entries : list (string * source)) (ret : list_ret)
  (ex : exn) :
  for_each linux_entry entries ret = Raise ex ->
  ex = IOError \/ ex = IndexError.
Proof.
  revert ret; induction entries as [|e entries IH]; intros ret; [discriminate |].
  cbn [for_each]. destruct (linux_entry e ret) as [ret1 | ex1] eqn:He; cbn.
  - apply IH.
  - intros [= <-]. now apply (linux_entry_raises e ret).
Qed.

(** X11: the exceptions that can leave [disks]: [KeyError] on FreeBSD,
    [IOError] or [IndexError] on Linux, none on Windows and none on an
    unsupported system. *)
Theorem disks_raises (h : host) (ex : exn) :
  disks h = Raise ex ->
  (is_freebsd h = true /\ ex = KeyError)
  \/ (is_freebsd h = false /\ is_linux h = true
      /\ (ex = IOError \/ ex = IndexError)).
Proof.
  unfold disks. destruct (is_freebsd h).
  - destruct (_freebsd_geom (geom_disk_list h)) as [r | e] eqn:Hr; cbn;
      [discriminate |].
    intros [= <-]. left. split; [reflexivity |].
    now apply (proj2 (freebsd_geom_outcome_core (geom_disk_list h))).
  - destruct (is_linux h).
    + unfold _linux_disks.
      destruct (for_each linux_entry (rotational h) (ListRet [] []))
        as [r | e] eqn:Hr; cbn; [discriminate |].
      intros [= <-]. right. repeat split.
      now apply (linux_loop_raises _ _ _ Hr).
    + destruct (is_windows h); discriminate.
Qed.

Lemma disks_raises_witness :
  (is_freebsd one_unreadable = true /\ IOError = KeyError)
  \/ (is_freebsd one_unreadable = false /\ is_linux one_unreadable = true
      /\ (IOError = IOError \/ IOError = IndexError)).
Proof. apply (disks_raises one_unreadable IOError). reflexivity. Defined.

Lemma windows_line_lists (line : string) (ret : list_ret) :
  windows_line ret line
  = ListRet (ret_disks ret ++ option_list (row_hdd line))
            (ret_SSDs ret ++ option_list (row_ssd line)).
Proof.
  destruct ret as [ds ss]. unfold windows_line, row_hdd, row_ssd.
  cbn [ret_disks ret_SSDs].
  destruct (valid_row line) as [[i0 m]|]; [| cbn; now rewrite !List.app_nil_r].
  destruct (String.eqb m "3") eqn:H3.
  - apply String.eqb_eq in H3. subst m. cbn. now rewrite List.app_nil_r.
  - destruct (String.eqb m "4"); cbn; now rewrite ?List.app_nil_r.
Qed.

Lemma windows_loop_lists (lines : list string) (ret : list_ret) :
  fold_left windows_line lines ret
  = ListRet (ret_disks ret ++ omap row_hdd lines)
            (ret_SSDs ret ++ omap row_ssd lines).
Proof.
  revert ret; induction lines as [|line lines IH]; intros ret.
  - destruct ret. cbn. now rewrite !List.app_nil_r.
  - cbn [fold_left]. rewrite IH, windows_line_lists.
    cbn [ret_disks ret_SSDs].
    now rewrite !omap_cons_option_list, !List.app_assoc.
Qed.

(** X12: with exit status 0 [_windows_disks] returns, in the order of
    the lines and once per line, the identifiers of the valid rows of
    media type ['3'] as the disks list and of media type ['4'] as the SSDs
    list; a drive index listed on several rows is listed as often. *)
Theorem windows_disks_lists (c : cmdret) :
  retcode c = 0 ->
  _windows_disks c
  = ListRet (omap row_hdd (Py.splitlines (stdout c)))
            (omap row_ssd (Py.splitlines (stdout c))).
Proof.
  intros Hc. unfold _windows_disks. rewrite Hc. cbn.
  now rewrite windows_loop_lists.
Qed.

Lemma windows_disks_lists_witness :
  _windows_disks (wmic drive_listed_twice)
  = ListRet ["\\.\PhysicalDrive0"] ["\\.\PhysicalDrive0"].
Proof. apply (windows_disks_lists (wmic drive_listed_twice)). reflexivity. Defined.

Lemma row_drive (line name : string) :
  row_hdd line = Some name \/ row_ssd line = Some name ->
  exists i0, name = physical_drive i0 /\ Py.isdigit i0 = true.
Proof.
  unfold row_hdd, row_ssd.
  destruct (valid_row line) as [[i0 m]|] eqn:Hv;
    [| intros [H | H]; discriminate].
  apply valid_row_iff in Hv as (_ & Hd & _).
  intros [H | H];
    [destruct (String.eqb m "3") | destruct (String.eqb m "4")];
    try discriminate; injection H as <-; eauto.
Qed.

(** X13: whatever the command returned, every identifier in either list
    of [_windows_disks] is the physical-drive prefix followed by a
    non-empty run of digits taken from a table row. *)
Theorem windows_identifiers (c : cmdret) (name : string) :
  name ∈ ret_disks (_windows_disks c) \/ name ∈ ret_SSDs (_windows_disks c) ->
  exists i0, name = ("\\.\PhysicalDrive" ++ i0)%string
             /\ Py.isdigit i0 = true.
Proof.
  unfold _windows_disks. destruct (negb (retcode c =? 0)).
  - cbn. intros [H | H]; now apply elem_of_nil in H.
  - rewrite windows_loop_lists. cbn [ret_disks ret_SSDs app].
    intros [H | H]; apply list_elem_of_omap in H as (line & _ & Hl);
      apply (row_drive line); auto.
Qed.

Lemma windows_identifiers_witness :
  exists i0, "\\.\PhysicalDrive1" = ("\\.\PhysicalDrive" ++ i0)%string
             /\ Py.isdigit i0 = true.
Proof.
  apply (windows_identifiers (wmic windows_example)).
  right. vm_compute. now left.
Defined.

End ListRuns.

(** ** Layout of the input lines *)

Section Layout.

Lemma split_ws_aux_blanks (ws rest : string) :
  blanks ws = true ->
  Py.split_ws_aux "" (ws ++ rest) = Py.split_ws_aux "" rest.
Proof.
  induction ws as [|c ws IH]; intros H; [reflexivity |].
  unfold blanks in H; simpl in H. apply andb_prop in H as [Hc Hws].
  rewrite app_cons. cbn [Py.split_ws_aux]. rewrite Hc. now apply IH.
Qed.

Lemma split_ws_aux_token_end (cur ws rest : string) :
  cur <> "" -> ws <> "" -> blanks ws = true ->
  Py.split_ws_aux cur (ws ++ rest) = cur :: Py.split_ws_aux "" rest.
Proof.
  intros Hcur Hws H. destruct ws as [|c ws]; [congruence |].
  unfold blanks in H; simpl in H. apply andb_prop in H as [Hc Hb].
  rewrite app_cons. cbn [Py.split_ws_aux]. rewrite Hc.
  destruct cur; [congruence |].
  now rewrite (split_ws_aux_blanks ws rest Hb).
Qed.

Lemma split_ws_aux_last (m ws : string) :
  m <> "" -> blanks ws = true -> Py.split_ws_aux m ws = [m].
Proof.
  intros Hm Hws. destruct ws as [|c ws].
  - cbn. now destruct m.
  - rewrite <- (app_nil_r (String c ws)).
    now rewrite (split_ws_aux_token_end m (String c ws) "" Hm).
Qed.

(** X14: the padding of a table row does not matter: two runs of digits
    with blanks between them, and any blanks before and after, are a
    valid row with those two tokens. *)
Theorem windows_row_padding (ws1 d ws2 m ws3 : string) :
  blanks ws1 = true -> blanks ws2 = true -> ws2 <> "" -> blanks ws3 = true ->
  Py.isdigit d = true -> Py.isdigit m = true ->
  valid_row (ws1 ++ d ++ ws2 ++ m ++ ws3) = Some (d, m).
Proof.
  intros H1 H2 Hne H3 Hd Hm.
  assert (Py.split_ws (ws1 ++ d ++ ws2 ++ m ++ ws3) = [d; m]) as Hs.
  { unfold Py.split_ws. rewrite (split_ws_aux_blanks ws1 _ H1).
    rewrite (split_ws_aux_digits d "" _ (isdigit_forallb d Hd)), app_nil_l.
    rewrite (split_ws_aux_token_end d ws2 _); [| now destruct d | exact Hne
                                                | exact H2].
    rewrite (split_ws_aux_digits m "" _ (isdigit_forallb m Hm)), app_nil_l.
    rewrite (split_ws_aux_last m ws3); [reflexivity | now destruct m | exact H3]. }
  unfold valid_row. now rewrite Hs, Hd, Hm.
Qed.

Lemma windows_row_padding_witness :
  valid_row ("0" ++ "         " ++ "3" ++ "  " ++ String "013" "")
  = Some ("0", "3").
Proof.
  apply (windows_row_padding "" "0" "         " "3" ("  " ++ String "013" ""));
    first [reflexivity | discriminate].
Defined.

(** A recognized key starts with a character that is no blank. *)
Lemma attrib_head (key : string) :
  key ∈ _geom_attribs ->
  exists k0 key', key = String k0 key' /\ Py.isspace k0 = false.
Proof.
  unfold _geom_attribs. intros H.
  repeat (apply elem_of_cons in H as [-> | H];
          [eexists _, _; split; reflexivity |]).
  now apply elem_of_nil in H.
Qed.

Lemma match_attrib_here_blank (k0 c : ascii) (key' s : string) :
  Py.isspace k0 = false -> Py.isspace c = true ->
  Py.match_attrib_here (String k0 key') (String c s) = None.
Proof.
  intros Hk Hc. unfold Py.match_attrib_here. rewrite app_cons. simpl.
  destruct (ascii_dec k0 c) as [-> | _]; [congruence | reflexivity].
Qed.

Lemma search_attrib_indented (key ws v : string) (c : ascii) :
  key ∈ _geom_attribs -> blanks ws = true -> Py.isspace c = true ->
  Py.search_attrib key (ws ++ key ++ ":" ++ String c v)
  = Some (Py.until_newline v).
Proof.
  intros Hk Hws Hc. induction ws as [|a ws IH].
  - rewrite app_nil_l.
    pose proof (match_attrib_here_app key v c Hc) as Hm.
    destruct (key ++ ":" ++ String c v); cbn [Py.search_attrib];
      now rewrite Hm.
  - unfold blanks in Hws; simpl in Hws. apply andb_prop in Hws as [Ha Hws].
    rewrite app_cons. cbn [Py.search_attrib].
    destruct (attrib_head key Hk) as (k0 & key' & -> & Hk0).
    rewrite (match_attrib_here_blank k0 a key' _ Hk0 Ha).
    now apply IH.
Qed.

Lemma until_newline_id (v : string) :
  no_newline v = true -> Py.until_newline v = v.
Proof.
  induction v as [|a v IH]; intros H; [reflexivity |].
  unfold no_newline in H; simpl in H. apply andb_prop in H as [Ha Hv].
  simpl. apply negb_true_iff in Ha. rewrite Ha. f_equal. now apply IH.
Qed.

(** X15: an indented attribute line stores what it says: for a
    recognized key, any indentation and one blank after the colon, the
    key holds the coercion of the rest of the line exactly as written;
    nothing is trimmed from it. *)
Theorem indented_line_value (key ws v : string) (c : ascii)
  (tmp : gmap string pyval) :
  key ∈ _geom_attribs -> blanks ws = true -> Py.isspace c = true ->
  no_newline v = true ->
  parse_line tmp (ws ++ key ++ ":" ++ String c v) !! key
  = Some (_datavalue (_datatypes !! key) v).
Proof.
  intros Hk Hws Hc Hv.
  rewrite (parse_line_lookup _ key tmp Hk).
  rewrite (search_attrib_indented key ws v c Hk Hws Hc).
  now rewrite (until_newline_id v Hv).
Qed.

Lemma indented_line_value_witness :
  parse_line ∅ ("   " ++ DESCR ++ ":" ++ String " " " WDC WD5000  ") !! DESCR
  = Some (_datavalue (_datatypes !! DESCR) " WDC WD5000  ").
Proof.
  apply (indented_line_value DESCR "   " " WDC WD5000  " " " ∅);
    first [compute_done | reflexivity].
Defined.

End Layout.
